(** * A model of [agent.py]: the weather tool and the job entrypoint

    [agent.py] holds two pieces of logic: the tool [Assistant.get_weather]
    and the coroutine [entrypoint] that drives one job.  Both are a straight
    line of calls to the outside (HTTP, the LiveKit API, the session engine)
    with Python's exceptions as the only non-local control flow.  Each one is
    embedded as a function into a small monad that records the calls made, in
    order, and ends either with a value or with the exception that left the
    function.  What the outside answers is a field of [World]. *)

From Stdlib Require Import ZArith String Ascii List Bool DecimalString Lia.
Import ListNotations.
Open Scope string_scope.

Set Warnings "-register-all".

(** ** Python values

    The values [json.loads] and [response.json()] can produce.  A [str] is
    kept as a Rocq [string]; text outside ASCII stands as its UTF-8 bytes,
    which concatenation, emptiness and search for an ASCII needle respect.  A
    [float] is kept as its [repr()], the text [str()] and an f-string print
    for it.  A [dict] keeps its entries in insertion order, keys unique. *)

Inductive pyval : Type :=
| VNone
| VBool (b : bool)
| VInt (n : Z)
| VFloat (repr : string)
| VStr (s : string)
| VList (items : list pyval)
| VDict (entries : list (string * pyval)).

(** Exceptions, by the classes the code tells apart.  All of them derive from
    [Exception]. *)
Inductive exn : Type :=
| AttributeError
| KeyError
| IndexError
| TypeError
| JSONDecodeError
| TwirpError (message : string)
| OtherException (name : string).

Inductive result (A : Type) : Type :=
| Ok (a : A)
| Raise (e : exn).
Arguments Ok {A} a.
Arguments Raise {A} e.

(** Truth value of an object, as [if x:] and [not x] test it. *)
Definition float_is_zero (repr : string) : bool :=
  (repr =? "0.0") || (repr =? "-0.0").

Definition truthy (v : pyval) : bool :=
  match v with
  | VNone => false
  | VBool b => b
  | VInt n => negb (n =? 0)%Z
  | VFloat r => negb (float_is_zero r)
  | VStr s => negb (s =? "")
  | VList items => match items with [] => false | _ :: _ => true end
  | VDict entries => match entries with [] => false | _ :: _ => true end
  end.

(** [os.environ.get(name)] and [if not api_key]. *)
Definition truthy_env (v : option string) : bool :=
  match v with
  | None => false
  | Some s => negb (s =? "")
  end.

Fixpoint dict_lookup (k : string) (entries : list (string * pyval)) : option pyval :=
  match entries with
  | [] => None
  | (k', v) :: rest => if k' =? k then Some v else dict_lookup k rest
  end.

(** [needle in hay] on two [str]: substring search. *)
Fixpoint contains (needle hay : string) : bool :=
  prefix needle hay ||
  match hay with
  | EmptyString => false
  | String _ rest => contains needle rest
  end.

Definition is_str (k : string) (v : pyval) : bool :=
  match v with
  | VStr s => s =? k
  | _ => false
  end.

(** [k in v] for a [str] k: key test on a dict, element test on a list,
    substring test on a str, [TypeError] on anything else. *)
Definition py_in (k : string) (v : pyval) : result bool :=
  match v with
  | VDict entries =>
      Ok (match dict_lookup k entries with Some _ => true | None => false end)
  | VList items => Ok (existsb (is_str k) items)
  | VStr s => Ok (contains k s)
  | _ => Raise TypeError
  end.

(** [v[k]] for a [str] k. *)
Definition getitem_key (v : pyval) (k : string) : result pyval :=
  match v with
  | VDict entries =>
      match dict_lookup k entries with
      | Some x => Ok x
      | None => Raise KeyError
      end
  | _ => Raise TypeError
  end.

(** Bytes of the UTF-8 sequence that starts with [c]. *)
Definition utf8_width (c : ascii) : nat :=
  let n := nat_of_ascii c in
  if (n <? 128)%nat then 1
  else if (n <? 224)%nat then 2
  else if (n <? 240)%nat then 3
  else 4.

(** [v[0]].  A dict decoded from JSON has only [str] keys, so [0] is never
    one of them. *)
Definition getitem_0 (v : pyval) : result pyval :=
  match v with
  | VList items =>
      match items with
      | x :: _ => Ok x
      | [] => Raise IndexError
      end
  | VStr s =>
      match s with
      | String c _ => Ok (VStr (substring 0 (utf8_width c) s))
      | EmptyString => Raise IndexError
      end
  | VDict _ => Raise KeyError
  | _ => Raise TypeError
  end.

(** [v.get(k)]: only a dict has the method. *)
Definition py_get (v : pyval) (k : string) : result pyval :=
  match v with
  | VDict entries =>
      Ok (match dict_lookup k entries with Some x => x | None => VNone end)
  | _ => Raise AttributeError
  end.

Definition str_int (n : Z) : string := NilZero.string_of_int (Z.to_int n).

(** ** Requests, as the code fills them *)

Record S3Upload : Type := {
  access_key : option string;
  secret : option string;
  region : string;
  bucket : string }.

Inductive EncodedFileType : Type := DEFAULT_FILETYPE | MP4 | OGG.

Record EncodedFileOutput : Type := {
  file_type : EncodedFileType;
  filepath : string;
  s3 : S3Upload }.

Record RoomCompositeEgressRequest : Type := {
  egress_room_name : string;
  audio_only : bool;
  file_outputs : list EncodedFileOutput }.

Record CreateSIPParticipantRequest : Type := {
  sip_room_name : string;
  sip_trunk_id : string;
  sip_call_to : string;
  participant_identity : string;
  wait_until_answered : bool }.

(** What [start_room_composite_egress] hands back, as far as the code looks
    at it: the two attributes it reads with [getattr], [None] when absent. *)
Record EgressInfo : Type := {
  egress_id : option string;
  egressId : option string }.

Record SessionConfig : Type := {
  stt : string;
  llm : string;
  tts : string * string;
  vad : string;
  turn_detection : string }.

Record StartOptions : Type := {
  start_room : string;
  start_agent_instructions : string;
  start_noise_cancellation : string }.

(** ** Calls to the outside, and what the outside answers *)

Inductive event : Type :=
| Connect
| Print (line : string)
| NewLiveKitAPI
| StartRoomCompositeEgress (req : RoomCompositeEgressRequest)
| AClose
| CreateSIPParticipant (req : CreateSIPParticipantRequest)
| Shutdown
| NewAgentSession (cfg : SessionConfig)
| SessionStart (opts : StartOptions)
| GenerateReply (instructions : string)
| HttpGet (url : string).

(** The answer to [session.get(url)]: the request fails, or a response comes
    with a status and with what [response.json()] will give. *)
Inductive http_outcome : Type :=
| NetworkError (e : exn)
| Response (status : Z) (body : result pyval).

Record World : Type := {
  environ : string -> option string;
  http_get : string -> http_outcome;
  connect : result unit;
  new_livekit_api : result unit;
  start_room_composite_egress : RoomCompositeEgressRequest -> result EgressInfo;
  aclose : result unit;
  create_sip_participant : CreateSIPParticipantRequest -> result unit;
  new_agent_session : SessionConfig -> result unit;
  session_start : StartOptions -> result unit }.

Record JobContext : Type := {
  room_name : string;
  job_metadata : option string }.

(** ** The monad: calls made so far, then a value or an exception *)

Definition M (A : Type) : Type := (list event * result A)%type.

Definition ret {A} (a : A) : M A := ([], Ok a).

Definition bind {A B} (m : M A) (k : A -> M B) : M B :=
  match m with
  | (t, Ok a) => let (t', r) := k a in ((t ++ t')%list, r)
  | (t, Raise e) => (t, Raise e)
  end.

(** A call to the outside: recorded, then answered. *)
Definition call {A} (ev : event) (answer : result A) : M A := ([ev], answer).

Definition lift {A} (r : result A) : M A := ([], r).

Definition print (line : string) : M unit := call (Print line) (Ok tt).

(** [try: m  except C as e: h e], where [catches] says whether C covers e. *)
Definition try_except {A} (m : M A) (catches : exn -> bool) (h : exn -> M A) : M A :=
  match m with
  | (t, Ok a) => (t, Ok a)
  | (t, Raise e) =>
      if catches e then let (t', r) := h e in ((t ++ t')%list, r) else (t, Raise e)
  end.

Notation "x <- m ;; k" := (bind m (fun x => k))
  (at level 61, m at next level, right associativity).
Notation "m ;; k" := (bind m (fun _ => k))
  (at level 61, right associativity).

Definition trace {A} (m : M A) : list event := fst m.
Definition outcome {A} (m : M A) : result A := snd m.

(** ** Observations on a run *)

Definition is_dial (ev : event) : bool :=
  match ev with
  | CreateSIPParticipant _ => true
  | _ => false
  end.

Definition is_session (ev : event) : bool :=
  match ev with
  | NewAgentSession _ | SessionStart _ => true
  | _ => false
  end.

Definition is_greeting (ev : event) : bool :=
  match ev with
  | GenerateReply _ => true
  | _ => false
  end.

Definition is_shutdown (ev : event) : bool :=
  match ev with
  | Shutdown => true
  | _ => false
  end.

Definition is_http_get (ev : event) : bool :=
  match ev with
  | HttpGet _ => true
  | _ => false
  end.

Definition count (p : event -> bool) (t : list event) : nat :=
  List.length (filter p t).

(** The calls and lines of the recording request (lines 73-99). *)
Definition is_print (ev : event) : bool :=
  match ev with
  | Print _ => true
  | _ => false
  end.

Definition egress_event (ev : event) : bool :=
  match ev with
  | NewLiveKitAPI | StartRoomCompositeEgress _ | AClose | Print _ => true
  | _ => false
  end.

(** How a job ends: the entrypoint returned and left the session running, it
    returned after [ctx.shutdown()], or an exception left it. *)
Inductive JobOutcome : Type :=
| Completed
| Aborted
| Crashed (e : exn).

Definition job_outcome (m : M unit) : JobOutcome :=
  match outcome m with
  | Raise e => Crashed e
  | Ok _ => if existsb is_shutdown (trace m) then Aborted else Completed
  end.

(** The call intent, which the code holds as the truth value of
    [phone_number] (lines 111 and 150). *)
Inductive CallIntent : Type :=
| Inbound
| Outbound (phone_number : pyval).

Definition call_intent (phone_number : pyval) : CallIntent :=
  if truthy phone_number then Outbound phone_number else Inbound.

(** In the spec's words, fixed one-decimal formatting: the text ends with a
    point and exactly one digit after it. *)
Definition is_digit (c : ascii) : bool :=
  (48 <=? nat_of_ascii c)%nat && (nat_of_ascii c <=? 57)%nat.

Fixpoint one_decimal (text : string) : bool :=
  match text with
  | EmptyString => false
  | String c rest =>
      match rest with
      | String d EmptyString => (c =? ".")%char && is_digit d
      | _ => one_decimal rest
      end
  end.

(** ** Sample data *)

Definition sample_repr (v : pyval) : string := "[...]".

Definition sample_exn_str (e : exn) : string :=
  match e with
  | TwirpError message => message
  | OtherException name => name
  | _ => "error"
  end.

Definition dquote : string := String "034"%char "".

(** [{"phone_number": "+15550100"}] *)
Definition outbound_metadata : string :=
  "{" ++ dquote ++ "phone_number" ++ dquote ++ ": "
      ++ dquote ++ "+15550100" ++ dquote ++ "}".

(** [{"phone_number": ""}] *)
Definition empty_number_metadata : string :=
  "{" ++ dquote ++ "phone_number" ++ dquote ++ ": " ++ dquote ++ dquote ++ "}".

(** [json.loads] on the texts used below. *)
Definition sample_loads (text : string) : result pyval :=
  if text =? "123" then Ok (VInt 123)
  else if text =? "{}" then Ok (VDict [])
  else if text =? outbound_metadata
  then Ok (VDict [("phone_number", VStr "+15550100")])
  else if text =? empty_number_metadata
  then Ok (VDict [("phone_number", VStr "")])
  else Raise JSONDecodeError.

Definition sample_environ (name : string) : option string :=
  if name =? "OPENWEATHER_API_KEY" then Some "KEY" else None.

(** The body [{"weather": [{"description": "clear sky"}], "main": {"temp": t}}]. *)
Definition clear_sky (temp : pyval) : list (string * pyval) :=
  [ ("weather", VList [VDict [("description", VStr "clear sky")]]);
    ("main", VDict [("temp", temp)]) ].

(** A world in which everything works and the provider answers [answer]. *)
Definition world_with (answer : http_outcome) : World :=
  {| environ := sample_environ;
     http_get := fun _ => answer;
     connect := Ok tt;
     new_livekit_api := Ok tt;
     start_room_composite_egress :=
       fun _ => Ok {| egress_id := Some "EG_1"; egressId := None |};
     aclose := Ok tt;
     create_sip_participant := fun _ => Ok tt;
     new_agent_session := fun _ => Ok tt;
     session_start := fun _ => Ok tt |}.

Definition fine_world : World :=
  world_with (Response 200 (Ok (VDict (clear_sky (VFloat "21.3"))))).

Definition no_key_world : World :=
  {| environ := fun _ => None;
     http_get := http_get fine_world;
     connect := Ok tt;
     new_livekit_api := Ok tt;
     start_room_composite_egress := start_room_composite_egress fine_world;
     aclose := Ok tt;
     create_sip_participant := fun _ => Ok tt;
     new_agent_session := fun _ => Ok tt;
     session_start := fun _ => Ok tt |}.

(** The recording service refuses the request. *)
Definition no_egress_world : World :=
  {| environ := sample_environ;
     http_get := http_get fine_world;
     connect := Ok tt;
     new_livekit_api := Ok tt;
     start_room_composite_egress := fun _ => Raise (TwirpError "permission denied");
     aclose := Ok tt;
     create_sip_participant := fun _ => Ok tt;
     new_agent_session := fun _ => Ok tt;
     session_start := fun _ => Ok tt |}.


Definition job (metadata : option string) : JobContext :=
  {| room_name := "room-1"; job_metadata := metadata |}.

(** [{"phone_number": null}] *)
Definition null_number_metadata : string :=
  "{" ++ dquote ++ "phone_number" ++ dquote ++ ": null}".

Definition more_loads (text : string) : result pyval :=
  if text =? null_number_metadata
  then Ok (VDict [("phone_number", VNone)])
  else sample_loads text.

(** The body [{"weather": [{"description": "clear sky"}]}], without [main]. *)
Definition sky_only : list (string * pyval) :=
  [ ("weather", VList [VDict [("description", VStr "clear sky")]]) ].

(** The session engine refuses to start. *)
Definition no_session_world : World :=
  {| environ := sample_environ;
     http_get := http_get fine_world;
     connect := Ok tt;
     new_livekit_api := Ok tt;
     start_room_composite_egress := start_room_composite_egress fine_world;
     aclose := Ok tt;
     create_sip_participant := fun _ => Ok tt;
     new_agent_session := fun _ => Ok tt;
     session_start := fun _ => Raise (OtherException "RuntimeError") |}.

(** The telephony API cannot be reached. *)
Definition no_gateway_world : World :=
  {| environ := sample_environ;
     http_get := http_get fine_world;
     connect := Ok tt;
     new_livekit_api := Ok tt;
     start_room_composite_egress := start_room_composite_egress fine_world;
     aclose := Ok tt;
     create_sip_participant := fun _ => Raise (OtherException "ClientConnectorError");
     new_agent_session := fun _ => Ok tt;
     session_start := fun _ => Ok tt |}.

Section Agent.

(** Python's own functions the model does not spell out: [repr] of a list or
    dict, [str] of an exception, [json.loads]. *)
Variable py_repr : pyval -> string.
Variable exn_str : exn -> string.
Variable json_loads : string -> result pyval.

(** [str(v)], which is what [{v}] in an f-string prints. *)
Definition py_str (v : pyval) : string :=
  match v with
  | VNone => "None"
  | VBool true => "True"
  | VBool false => "False"
  | VInt n => str_int n
  | VFloat r => r
  | VStr s => s
  | VList _ | VDict _ => py_repr v
  end.

(** ** [Assistant.get_weather] (agent.py, lines 36-63) *)

Definition weather_url (location api_key : string) : string :=
  "http://api.openweathermap.org/data/2.5/weather?q=" ++ location
    ++ "&appid=" ++ api_key ++ "&units=metric".

Definition no_key_sentence : string := "OpenWeather API key is not set.".

Definition status_sentence (status : Z) : string :=
  "Sorry, I couldn't get the weather. Status code: " ++ str_int status.

Definition no_data_sentence : string :=
  "Sorry, I couldn't find any weather data for that location.".

Definition weather_sentence (location : string) (description temp : pyval) : string :=
  "The weather in " ++ location ++ " is " ++ py_str description
    ++ " with a temperature of " ++ py_str temp ++ "°C.".

(** The string held by a variable that has just passed a truth test. *)
Definition the (o : option string) : string :=
  match o with
  | Some s => s
  | None => ""
  end.

(** [session.get(url)] entered with [async with]. *)
Definition session_get (w : World) (url : string) : M (Z * result pyval) :=
  match http_get w url with
  | NetworkError e => call (HttpGet url) (Raise e)
  | Response status body => call (HttpGet url) (Ok (status, body))
  end.

(** ["weather" not in data or not data["weather"]] *)
Definition weather_missing (data : pyval) : M bool :=
  present <- lift (py_in "weather" data) ;;
  if negb present then ret true
  else
    weather <- lift (getitem_key data "weather") ;;
    ret (negb (truthy weather)).

Definition get_weather (w : World) (location : string) : M string :=
  let api_key := environ w "OPENWEATHER_API_KEY" in
  if negb (truthy_env api_key) then ret no_key_sentence
  else
    let url := weather_url location (the api_key) in
    response <- session_get w url ;;
    let (status, body) := response in
    if negb (status =? 200)%Z then ret (status_sentence status)
    else
      data <- lift body ;;
      missing <- weather_missing data ;;
      if missing then ret no_data_sentence
      else
        weather <- lift (getitem_key data "weather") ;;
        first <- lift (getitem_0 weather) ;;
        description <- lift (getitem_key first "description") ;;
        main <- lift (getitem_key data "main") ;;
        temp <- lift (getitem_key main "temp") ;;
        ret (weather_sentence location description temp).

(** The URL [get_weather] asks for in world [w]. *)
Definition request_url (w : World) (location : string) : string :=
  weather_url location (the (environ w "OPENWEATHER_API_KEY")).

Definition key_is_set (w : World) : bool :=
  truthy_env (environ w "OPENWEATHER_API_KEY").

(** ** [entrypoint] (agent.py, lines 67-153)

    The awaited calls whose failure the job has to cope with take their answer
    from the world: connecting, the three steps of the recording request, the
    dial, building and starting the session.  [ctx.shutdown()] and
    [session.generate_reply(...)] are recorded and return. *)

(** Lines 76-92. *)
Definition egress_request (w : World) (ctx : JobContext) : RoomCompositeEgressRequest :=
  {| egress_room_name := room_name ctx;
     audio_only := true;
     file_outputs :=
       [ {| file_type := OGG;
            filepath := room_name ctx ++ ".ogg";
            s3 := {| access_key := environ w "AWS_S3_ACCESS_KEY";
                     secret := environ w "AWS_S3_SECRET_KEY";
                     region := "eu-north-1";
                     bucket := "livekit-calls" |} |} ] |}.

(** [a or b] on two attribute reads. *)
Definition py_or (a b : option string) : option string :=
  if truthy_env a then a else b.

Definition str_opt (o : option string) : string :=
  match o with
  | Some s => s
  | None => "None"
  end.

(** [except Exception]: every class of [exn] derives from it. *)
Definition is_Exception (e : exn) : bool := true.

Definition is_JSONDecodeError (e : exn) : bool :=
  match e with
  | JSONDecodeError => true
  | _ => false
  end.

Definition is_TwirpError (e : exn) : bool :=
  match e with
  | TwirpError _ => true
  | _ => false
  end.

(** [e.message], read only in the handler of [TwirpError]. *)
Definition twirp_message (e : exn) : string :=
  match e with
  | TwirpError message => message
  | _ => ""
  end.

(** Lines 74-97, the body of the [try]. *)
Definition request_egress (w : World) (ctx : JobContext) : M unit :=
  call NewLiveKitAPI (new_livekit_api w) ;;
  let req := egress_request w ctx in
  print "Starting room egress..." ;;
  egress_info <- call (StartRoomCompositeEgress req)
                      (start_room_composite_egress w req) ;;
  call AClose (aclose w) ;;
  let id := py_or (egress_id egress_info) (egressId egress_info) in
  print ("Egress started successfully. Egress ID: " ++ str_opt id).

(** Lines 73-99. *)
Definition start_egress (w : World) (ctx : JobContext) : M unit :=
  try_except (request_egress w ctx) is_Exception
    (fun e => print ("Error starting egress: " ++ exn_str e)).

(** Lines 102-108. *)
Definition resolve_phone_number (ctx : JobContext) : M pyval :=
  if truthy_env (job_metadata ctx) then
    try_except
      (metadata <- lift (json_loads (the (job_metadata ctx))) ;;
       lift (py_get metadata "phone_number"))
      is_JSONDecodeError
      (fun _ => print "Error: Invalid JSON in job metadata" ;; ret VNone)
  else ret VNone.

(** Lines 115-121, for a number that is a [str]. *)
Definition dial_request (ctx : JobContext) (number : string) : CreateSIPParticipantRequest :=
  {| sip_room_name := room_name ctx;
     sip_trunk_id := "ST_p7QcFHJKXXUM";
     sip_call_to := number;
     participant_identity := number;
     wait_until_answered := true |}.

(** The request is a protobuf message whose [sip_call_to] and
    [participant_identity] are string fields: building it with anything but a
    [str] raises [TypeError]. *)
Definition sip_request (ctx : JobContext) (phone_number : pyval)
  : result CreateSIPParticipantRequest :=
  match phone_number with
  | VStr number => Ok (dial_request ctx number)
  | _ => Raise TypeError
  end.

(** How a block hands control on: to the next statement, or out of the
    function by [return]. *)
Inductive flow : Type := Next | Return.

(** Lines 112-127, the body of [if phone_number:]. *)
Definition place_call (w : World) (ctx : JobContext) (phone_number : pyval) : M flow :=
  print ("Attempting to place outbound call to: " ++ py_str phone_number) ;;
  try_except
    (req <- lift (sip_request ctx phone_number) ;;
     call (CreateSIPParticipant req) (create_sip_participant w req) ;;
     print ("Call to " ++ py_str phone_number ++ " was answered.") ;;
     ret Next)
    is_TwirpError
    (fun e =>
       print ("Error creating SIP participant: " ++ twirp_message e) ;;
       call Shutdown (Ok tt) ;;
       ret Return).

Definition session_config : SessionConfig :=
  {| stt := "ink-whisper";
     llm := "gemini-2.5-flash";
     tts := ("arcana", "astra");
     vad := "silero";
     turn_detection := "EnglishModel" |}.

Definition assistant_instructions : string :=
  "You are a helpful voice AI assistant. You can check the weather in a given location.".

Definition start_options (ctx : JobContext) : StartOptions :=
  {| start_room := room_name ctx;
     start_agent_instructions := assistant_instructions;
     start_noise_cancellation := "BVCTelephony" |}.

Definition greeting_instructions : string :=
  "Greet the user and offer your assistance.".

(** Lines 130-153. *)
Definition run_session (w : World) (ctx : JobContext) (phone_number : pyval) : M unit :=
  call (NewAgentSession session_config) (new_agent_session w session_config) ;;
  call (SessionStart (start_options ctx)) (session_start w (start_options ctx)) ;;
  if negb (truthy phone_number)
  then call (GenerateReply greeting_instructions) (Ok tt)
  else ret tt.

(** Lines 110-153, with [phone_number] bound. *)
Definition call_and_serve (w : World) (ctx : JobContext) (phone_number : pyval) : M unit :=
  step <- (if truthy phone_number then place_call w ctx phone_number else ret Next) ;;
  match step with
  | Return => ret tt
  | Next => run_session w ctx phone_number
  end.

(** Lines 101-153: everything after the recording request. *)
Definition serve_call (w : World) (ctx : JobContext) : M unit :=
  phone_number <- resolve_phone_number ctx ;;
  call_and_serve w ctx phone_number.

Definition entrypoint (w : World) (ctx : JobContext) : M unit :=
  call Connect (connect w) ;;
  start_egress w ctx ;;
  serve_call w ctx.

(** ** Vocabulary for the job's steps *)

(** The exception that ends the recording request, if one does. *)
Definition egress_failure (w : World) (ctx : JobContext) : option exn :=
  match new_livekit_api w with
  | Raise e => Some e
  | Ok _ =>
      match start_room_composite_egress w (egress_request w ctx) with
      | Raise e => Some e
      | Ok _ =>
          match aclose w with
          | Raise e => Some e
          | Ok _ => None
          end
      end
  end.

(** Two worlds that answer alike everywhere but to the recording request. *)
Definition same_outside_egress (w w' : World) : Prop :=
  connect w = connect w'
  /\ (forall req, create_sip_participant w req = create_sip_participant w' req)
  /\ (forall cfg, new_agent_session w cfg = new_agent_session w' cfg)
  /\ (forall opts, session_start w opts = session_start w' opts).

(** The session was started in this run and the start succeeded. *)
Definition session_started (w : World) (ctx : JobContext) (t : list event) : Prop :=
  In (SessionStart (start_options ctx)) t
  /\ session_start w (start_options ctx) = Ok tt.

(** ** Shapes of a decoded body *)

(** The object has no ["weather"] entry, or one that tests false. *)
Definition weather_absent_or_empty (entries : list (string * pyval)) : Prop :=
  match dict_lookup "weather" entries with
  | Some weather => truthy weather = false
  | None => True
  end.

(** The object has the two facts where the code reads them:
    [data["weather"][0]["description"]] and [data["main"]["temp"]]. *)
Definition weather_facts (entries : list (string * pyval))
    (description temp : pyval) : Prop :=
  exists first rest main,
    dict_lookup "weather" entries = Some (VList (VDict first :: rest))
    /\ dict_lookup "description" first = Some description
    /\ dict_lookup "main" entries = Some (VDict main)
    /\ dict_lookup "temp" main = Some temp.

(** The situations for which [get_weather] has an exit of its own. *)
Inductive guarded (w : World) (location : string) : Prop :=
| guarded_no_key :
    key_is_set w = false -> guarded w location
| guarded_status status body :
    key_is_set w = true ->
    http_get w (request_url w location) = Response status body ->
    status <> 200%Z ->
    guarded w location
| guarded_no_data entries :
    key_is_set w = true ->
    http_get w (request_url w location) = Response 200 (Ok (VDict entries)) ->
    weather_absent_or_empty entries ->
    guarded w location
| guarded_report entries description temp :
    key_is_set w = true ->
    http_get w (request_url w location) = Response 200 (Ok (VDict entries)) ->
    weather_facts entries description temp ->
    guarded w location.

(** ** Vocabulary for the further properties *)

(** Lines 57-63 on their own: what [get_weather] does with a decoded body. *)
Definition read_body (location : string) (data : pyval) : M string :=
  missing <- weather_missing data ;;
  if missing then ret no_data_sentence
  else
    weather <- lift (getitem_key data "weather") ;;
    first <- lift (getitem_0 weather) ;;
    description <- lift (getitem_key first "description") ;;
    main <- lift (getitem_key data "main") ;;
    temp <- lift (getitem_key main "temp") ;;
    ret (weather_sentence location description temp).

Definition is_egress_request (ev : event) : bool :=
  match ev with
  | StartRoomCompositeEgress _ => true
  | _ => false
  end.

Definition is_session_build (ev : event) : bool :=
  match ev with
  | NewAgentSession _ => true
  | _ => false
  end.

Definition is_session_start (ev : event) : bool :=
  match ev with
  | SessionStart _ => true
  | _ => false
  end.

(** The calls and lines of lines 110-153. *)
Definition serve_event (ev : event) : bool :=
  match ev with
  | Print _ | CreateSIPParticipant _ | Shutdown | NewAgentSession _
  | SessionStart _ | GenerateReply _ => true
  | _ => false
  end.

(** The job as it is without metadata. *)
Definition without_metadata (ctx : JobContext) : JobContext :=
  {| room_name := room_name ctx; job_metadata := None |}.

(** ** Facts about the monad *)

Lemma trace_bind {A B} (m : M A) (k : A -> M B) :
  trace (bind m k)
  = (trace m ++ match outcome m with Ok a => trace (k a) | Raise _ => [] end)%list.
Proof.
  destruct m as [t [a | e]]; simpl.
  - destruct (k a); reflexivity.
  - now rewrite app_nil_r.
Qed.

Lemma outcome_bind {A B} (m : M A) (k : A -> M B) :
  outcome (bind m k)
  = match outcome m with Ok a => outcome (k a) | Raise e => Raise e end.
Proof.
  destruct m as [t [a | e]]; simpl; [destruct (k a) |]; reflexivity.
Qed.

Lemma run_eta {A} (m : M A) : m = (trace m, outcome m).
Proof. now destruct m. Qed.

(** ** The exits of [get_weather] *)

Lemma get_weather_no_key w location :
  key_is_set w = false ->
  get_weather w location = ([], Ok no_key_sentence).
Proof.
  unfold key_is_set, get_weather. intros ->. reflexivity.
Qed.

Lemma get_weather_network_error w location e :
  key_is_set w = true ->
  http_get w (request_url w location) = NetworkError e ->
  get_weather w location = ([HttpGet (request_url w location)], Raise e).
Proof.
  unfold key_is_set, get_weather, request_url, session_get.
  intros -> ->. reflexivity.
Qed.

Lemma get_weather_other_status w location status body :
  key_is_set w = true ->
  http_get w (request_url w location) = Response status body ->
  status <> 200%Z ->
  get_weather w location
  = ([HttpGet (request_url w location)], Ok (status_sentence status)).
Proof.
  unfold key_is_set, get_weather, request_url, session_get.
  intros -> -> Hs. apply Z.eqb_neq in Hs. simpl. rewrite Hs. reflexivity.
Qed.

Lemma get_weather_bad_body w location e :
  key_is_set w = true ->
  http_get w (request_url w location) = Response 200 (Raise e) ->
  get_weather w location = ([HttpGet (request_url w location)], Raise e).
Proof.
  unfold key_is_set, get_weather, request_url, session_get.
  intros -> ->. reflexivity.
Qed.

Lemma weather_missing_dict entries :
  weather_missing (VDict entries)
  = ret match dict_lookup "weather" entries with
        | Some weather => negb (truthy weather)
        | None => true
        end.
Proof.
  unfold weather_missing, py_in, getitem_key, lift, bind, ret.
  destruct (dict_lookup "weather" entries); reflexivity.
Qed.

Lemma get_weather_no_data w location entries :
  key_is_set w = true ->
  http_get w (request_url w location) = Response 200 (Ok (VDict entries)) ->
  weather_absent_or_empty entries ->
  get_weather w location
  = ([HttpGet (request_url w location)], Ok no_data_sentence).
Proof.
  unfold key_is_set, get_weather, request_url, session_get, weather_absent_or_empty.
  intros -> -> Hw. simpl. rewrite weather_missing_dict.
  destruct (dict_lookup "weather" entries) as [weather |].
  - rewrite Hw. reflexivity.
  - reflexivity.
Qed.

Lemma get_weather_report w location entries description temp :
  key_is_set w = true ->
  http_get w (request_url w location) = Response 200 (Ok (VDict entries)) ->
  weather_facts entries description temp ->
  get_weather w location
  = ([HttpGet (request_url w location)],
     Ok (weather_sentence location description temp)).
Proof.
  unfold key_is_set, get_weather, request_url, session_get.
  intros -> -> (first & rest & main & Hw & Hd & Hm & Ht).
  simpl. rewrite weather_missing_dict.
  rewrite Hw. simpl. rewrite Hd, Hm. simpl. rewrite Ht. reflexivity.
Qed.

(** ** The weather tool: what the claims say *)

(** C8.  With no API key configured ([OPENWEATHER_API_KEY] unset or empty),
    [get_weather] returns the fixed sentence "OpenWeather API key is not set."
    for every location, makes no request to the provider and raises nothing. *)
Theorem get_weather_without_key w location :
  truthy_env (environ w "OPENWEATHER_API_KEY") = false ->
  outcome (get_weather w location) = Ok "OpenWeather API key is not set."
  /\ trace (get_weather w location) = []
  /\ count is_http_get (trace (get_weather w location)) = 0.
Proof.
  intros H. rewrite (get_weather_no_key w location H). repeat split.
Qed.

(** C7, amended.  When the provider answers with any status other than 200
    (every non-2xx status is one), [get_weather] returns the sentence that
    reports that status; when it answers 200 with an object whose ["weather"]
    entry is absent or empty, [get_weather] returns the fixed no-data
    sentence.  Neither case raises. *)
Theorem get_weather_status_or_no_data w location status body :
  key_is_set w = true ->
  http_get w (request_url w location) = Response status body ->
  (status <> 200%Z ->
   outcome (get_weather w location)
   = Ok ("Sorry, I couldn't get the weather. Status code: " ++ str_int status))
  /\ (forall entries,
        status = 200%Z ->
        body = Ok (VDict entries) ->
        weather_absent_or_empty entries ->
        outcome (get_weather w location)
        = Ok "Sorry, I couldn't find any weather data for that location.").
Proof.
  intros Hkey Hget. split.
  - intros Hs. now rewrite (get_weather_other_status _ _ _ _ Hkey Hget Hs).
  - intros entries -> -> Hw. now rewrite (get_weather_no_data _ _ _ Hkey Hget Hw).
Qed.

(** C6, amended.  On a 200 response whose body holds a description and a
    temperature, [get_weather] returns "The weather in <location> is
    <description> with a temperature of <temp>°C.", the temperature printed as
    Python prints the decoded number, with no fixed count of decimals; a
    temperature of 21.3 is reported as "21.3". *)
Theorem get_weather_reports_facts w location entries description temp :
  key_is_set w = true ->
  http_get w (request_url w location) = Response 200 (Ok (VDict entries)) ->
  weather_facts entries description temp ->
  outcome (get_weather w location)
  = Ok ("The weather in " ++ location ++ " is " ++ py_str description
          ++ " with a temperature of " ++ py_str temp ++ "°C.")
  /\ (forall sky,
        description = VStr sky ->
        temp = VFloat "21.3" ->
        outcome (get_weather w location)
        = Ok ("The weather in " ++ location ++ " is " ++ sky
                ++ " with a temperature of 21.3°C.")).
Proof.
  intros Hkey Hget Hfacts.
  rewrite (get_weather_report _ _ _ _ _ Hkey Hget Hfacts).
  split; [reflexivity | intros sky -> ->; reflexivity].
Qed.

(** C4, amended.  [get_weather] returns a string on each exit it guards: no
    API key, a status other than 200, a 200 object without a non-empty
    ["weather"], a 200 object with description and temperature.  It catches
    nothing: an exception from the request or from decoding the body leaves
    [get_weather]. *)
Theorem get_weather_returns_where_guarded w location :
  (guarded w location ->
   exists sentence, outcome (get_weather w location) = Ok sentence)
  /\ (forall e,
        key_is_set w = true ->
        http_get w (request_url w location) = NetworkError e ->
        outcome (get_weather w location) = Raise e)
  /\ (forall e,
        key_is_set w = true ->
        http_get w (request_url w location) = Response 200 (Raise e) ->
        outcome (get_weather w location) = Raise e).
Proof.
  repeat split.
  - intros [Hkey | status body Hkey Hget Hs | entries Hkey Hget Hw
           | entries description temp Hkey Hget Hfacts].
    + rewrite (get_weather_no_key _ _ Hkey). now eexists.
    + rewrite (get_weather_other_status _ _ _ _ Hkey Hget Hs). now eexists.
    + rewrite (get_weather_no_data _ _ _ Hkey Hget Hw). now eexists.
    + rewrite (get_weather_report _ _ _ _ _ Hkey Hget Hfacts). now eexists.
  - intros e Hkey Hget. now rewrite (get_weather_network_error _ _ _ Hkey Hget).
  - intros e Hkey Hget. now rewrite (get_weather_bad_body _ _ _ Hkey Hget).
Qed.

(** ** Steps of [entrypoint] *)

Lemma count_app p (a b : list event) : count p (a ++ b) = count p a + count p b.
Proof.
  unfold count. now rewrite filter_app, length_app.
Qed.

Lemma count_none p (t : list event) :
  Forall (fun ev => p ev = false) t -> count p t = 0.
Proof.
  unfold count. induction 1 as [| ev t Hev _ IH]; simpl; [reflexivity |].
  now rewrite Hev.
Qed.

Lemma count_in p (t : list event) ev : In ev t -> p ev = true -> 0 < count p t.
Proof.
  unfold count. induction t as [| x t IH]; simpl; [tauto |].
  intros [-> | Hin] Hp.
  - rewrite Hp. simpl. lia.
  - destruct (p x); simpl; [lia | now apply IH].
Qed.

Lemma start_egress_returns w ctx : outcome (start_egress w ctx) = Ok tt.
Proof.
  unfold start_egress, request_egress, try_except, bind, call, print.
  destruct (new_livekit_api w) as [[] | e1]; simpl; [| reflexivity].
  destruct (start_room_composite_egress w (egress_request w ctx)) as [info | e2];
    simpl; [| reflexivity].
  destruct (aclose w) as [[] | e3]; reflexivity.
Qed.

Lemma start_egress_events w ctx :
  Forall (fun ev => egress_event ev = true) (trace (start_egress w ctx)).
Proof.
  unfold start_egress, request_egress, try_except, bind, call, print.
  destruct (new_livekit_api w) as [[] | e1]; simpl; [| repeat constructor].
  destruct (start_room_composite_egress w (egress_request w ctx)) as [info | e2];
    simpl; [| repeat constructor].
  destruct (aclose w) as [[] | e3]; simpl; repeat constructor.
Qed.

Lemma start_egress_logs_failure w ctx e :
  egress_failure w ctx = Some e ->
  exists before,
    trace (start_egress w ctx)
    = (before ++ [Print ("Error starting egress: " ++ exn_str e)])%list.
Proof.
  unfold egress_failure, start_egress, request_egress, try_except, bind, call, print.
  destruct (new_livekit_api w) as [[] | e1]; simpl.
  - destruct (start_room_composite_egress w (egress_request w ctx)) as [info | e2];
      simpl.
    + destruct (aclose w) as [[] | e3]; simpl; [discriminate |].
      intros [= ->]. now eexists [_; _; _; _].
    + intros [= ->]. now eexists [_; _; _].
  - intros [= ->]. now eexists [_].
Qed.

Lemma start_egress_counts w ctx p :
  (forall ev, egress_event ev = true -> p ev = false) ->
  count p (trace (start_egress w ctx)) = 0.
Proof.
  intros Hp. apply count_none.
  eapply Forall_impl; [| apply start_egress_events]. exact Hp.
Qed.

Lemma entrypoint_connected w ctx :
  connect w = Ok tt ->
  entrypoint w ctx
  = ((Connect :: trace (start_egress w ctx) ++ trace (serve_call w ctx))%list,
     outcome (serve_call w ctx)).
Proof.
  intros Hc. unfold entrypoint. rewrite Hc.
  rewrite (run_eta (start_egress w ctx)), start_egress_returns.
  simpl. now destruct (serve_call w ctx).
Qed.

Lemma entrypoint_refused w ctx e :
  connect w = Raise e -> entrypoint w ctx = ([Connect], Raise e).
Proof.
  intros Hc. unfold entrypoint. now rewrite Hc.
Qed.

(** *** Resolving the phone number *)

Lemma resolve_absent ctx :
  truthy_env (job_metadata ctx) = false ->
  resolve_phone_number ctx = ([], Ok VNone).
Proof.
  unfold resolve_phone_number. now intros ->.
Qed.

Lemma truthy_env_some text : text <> "" -> truthy_env (Some text) = true.
Proof.
  intros H. simpl. now apply String.eqb_neq in H as ->.
Qed.

Lemma resolve_loaded ctx text :
  job_metadata ctx = Some text ->
  text <> "" ->
  resolve_phone_number ctx
  = match json_loads text with
    | Ok (VDict entries) =>
        ([], Ok match dict_lookup "phone_number" entries with
                | Some number => number
                | None => VNone
                end)
    | Ok _ => ([], Raise AttributeError)
    | Raise JSONDecodeError =>
        ([Print "Error: Invalid JSON in job metadata"], Ok VNone)
    | Raise e => ([], Raise e)
    end.
Proof.
  intros Hm Hne. unfold resolve_phone_number.
  rewrite Hm, (truthy_env_some _ Hne). simpl.
  destruct (json_loads text) as [[] | []]; reflexivity.
Qed.

Lemma resolve_events ctx :
  Forall (fun ev => is_print ev = true) (trace (resolve_phone_number ctx)).
Proof.
  unfold resolve_phone_number.
  destruct (truthy_env (job_metadata ctx)); [| constructor].
  unfold try_except, bind, lift.
  destruct (json_loads (the (job_metadata ctx))) as [[] | []];
    simpl; repeat constructor.
Qed.

Lemma resolve_counts ctx p :
  (forall line, p (Print line) = false) ->
  count p (trace (resolve_phone_number ctx)) = 0.
Proof.
  intros Hp. apply count_none.
  eapply Forall_impl; [| apply resolve_events].
  intros [] H; try discriminate. apply Hp.
Qed.

(** *** Dialling *)

Lemma place_call_number w ctx number :
  place_call w ctx (VStr number)
  = match create_sip_participant w (dial_request ctx number) with
    | Ok _ =>
        ([Print ("Attempting to place outbound call to: " ++ number);
          CreateSIPParticipant (dial_request ctx number);
          Print ("Call to " ++ number ++ " was answered.")],
         Ok Next)
    | Raise (TwirpError message) =>
        ([Print ("Attempting to place outbound call to: " ++ number);
          CreateSIPParticipant (dial_request ctx number);
          Print ("Error creating SIP participant: " ++ message);
          Shutdown],
         Ok Return)
    | Raise e =>
        ([Print ("Attempting to place outbound call to: " ++ number);
          CreateSIPParticipant (dial_request ctx number)],
         Raise e)
    end.
Proof.
  unfold place_call, sip_request, try_except, bind, call, print, lift, ret.
  simpl.
  destruct (create_sip_participant w (dial_request ctx number)) as [[] | []];
    reflexivity.
Qed.

Lemma place_call_not_a_number w ctx phone_number :
  (forall number, phone_number <> VStr number) ->
  place_call w ctx phone_number
  = ([Print ("Attempting to place outbound call to: " ++ py_str phone_number)],
     Raise TypeError).
Proof.
  intros H. unfold place_call, sip_request.
  destruct phone_number as [| b | n | r | number | items | entries];
    try reflexivity.
  now destruct (H number).
Qed.

(** *** The session *)

Lemma run_session_cases w ctx phone_number :
  run_session w ctx phone_number
  = match new_agent_session w session_config with
    | Raise e => ([NewAgentSession session_config], Raise e)
    | Ok _ =>
        match session_start w (start_options ctx) with
        | Raise e =>
            ([NewAgentSession session_config; SessionStart (start_options ctx)],
             Raise e)
        | Ok _ =>
            if truthy phone_number
            then ([NewAgentSession session_config; SessionStart (start_options ctx)],
                  Ok tt)
            else ([NewAgentSession session_config; SessionStart (start_options ctx);
                   GenerateReply greeting_instructions],
                  Ok tt)
        end
    end.
Proof.
  unfold run_session, bind, call, ret.
  destruct (new_agent_session w session_config) as [[] | e]; [| reflexivity].
  destruct (session_start w (start_options ctx)) as [[] | e]; [| reflexivity].
  destruct (truthy phone_number); reflexivity.
Qed.

Lemma call_and_serve_inbound w ctx phone_number :
  truthy phone_number = false ->
  call_and_serve w ctx phone_number = run_session w ctx VNone.
Proof.
  intros H. unfold call_and_serve. rewrite H. simpl.
  rewrite !run_session_cases, H. simpl.
  destruct (new_agent_session w session_config) as [[] | e]; [| reflexivity].
  destruct (session_start w (start_options ctx)) as [[] | e]; reflexivity.
Qed.

Lemma serve_call_resolved w ctx :
  serve_call w ctx
  = match outcome (resolve_phone_number ctx) with
    | Ok phone_number =>
        ((trace (resolve_phone_number ctx)
            ++ trace (call_and_serve w ctx phone_number))%list,
         outcome (call_and_serve w ctx phone_number))
    | Raise e => (trace (resolve_phone_number ctx), Raise e)
    end.
Proof.
  unfold serve_call.
  destruct (resolve_phone_number ctx) as [t [phone_number | e]]; simpl;
    [| reflexivity].
  now destruct (call_and_serve w ctx phone_number).
Qed.

(** *** After the number is known *)

Lemma call_and_serve_number w ctx number :
  number <> "" ->
  call_and_serve w ctx (VStr number)
  = match create_sip_participant w (dial_request ctx number) with
    | Ok _ =>
        ((Print ("Attempting to place outbound call to: " ++ number)
          :: CreateSIPParticipant (dial_request ctx number)
          :: Print ("Call to " ++ number ++ " was answered.")
          :: trace (run_session w ctx (VStr number)))%list,
         outcome (run_session w ctx (VStr number)))
    | Raise (TwirpError message) =>
        ([Print ("Attempting to place outbound call to: " ++ number);
          CreateSIPParticipant (dial_request ctx number);
          Print ("Error creating SIP participant: " ++ message);
          Shutdown],
         Ok tt)
    | Raise e =>
        ([Print ("Attempting to place outbound call to: " ++ number);
          CreateSIPParticipant (dial_request ctx number)],
         Raise e)
    end.
Proof.
  intros Hne. unfold call_and_serve.
  assert (truthy (VStr number) = true) as ->
      by (simpl; now apply String.eqb_neq in Hne as ->).
  rewrite place_call_number.
  destruct (create_sip_participant w (dial_request ctx number)) as [[] | []];
    try reflexivity.
  simpl. now destruct (run_session w ctx (VStr number)).
Qed.

Lemma call_and_serve_not_a_number w ctx phone_number :
  truthy phone_number = true ->
  (forall number, phone_number <> VStr number) ->
  call_and_serve w ctx phone_number
  = ([Print ("Attempting to place outbound call to: " ++ py_str phone_number)],
     Raise TypeError).
Proof.
  intros Ht Hn. unfold call_and_serve.
  now rewrite Ht, (place_call_not_a_number _ _ _ Hn).
Qed.

Lemma truthy_str number : truthy (VStr number) = true -> number <> "".
Proof.
  simpl. intros H ->. discriminate.
Qed.

(** The three ways [phone_number] can be. *)
Lemma phone_number_cases phone_number :
  truthy phone_number = false
  \/ (exists number, phone_number = VStr number /\ number <> "")
  \/ (truthy phone_number = true /\ forall number, phone_number <> VStr number).
Proof.
  destruct (truthy phone_number) eqn:Ht; [right | now left].
  destruct phone_number as [| b | n | r | number | items | entries];
    try (right; split; [reflexivity | discriminate]).
  left. exists number. split; [reflexivity | now apply truthy_str].
Qed.

Lemma run_session_count w ctx phone_number p :
  p (NewAgentSession session_config) = false ->
  p (SessionStart (start_options ctx)) = false ->
  count p (trace (run_session w ctx phone_number))
  = match new_agent_session w session_config,
          session_start w (start_options ctx) with
    | Ok _, Ok _ =>
        if truthy phone_number then 0
        else count p [GenerateReply greeting_instructions]
    | _, _ => 0
    end.
Proof.
  intros H1 H2. rewrite run_session_cases. unfold count.
  destruct (new_agent_session w session_config) as [[] | e];
    [destruct (session_start w (start_options ctx)) as [[] | e];
     [destruct (truthy phone_number) |] |];
    simpl; rewrite ?H1, ?H2; reflexivity.
Qed.

Lemma entrypoint_count w ctx p phone_number :
  connect w = Ok tt ->
  outcome (resolve_phone_number ctx) = Ok phone_number ->
  p Connect = false ->
  (forall ev, egress_event ev = true -> p ev = false) ->
  count p (trace (entrypoint w ctx))
  = count p (trace (call_and_serve w ctx phone_number)).
Proof.
  intros Hc Hr Hp He. rewrite (entrypoint_connected _ _ Hc).
  rewrite serve_call_resolved, Hr. simpl trace.
  change (Connect :: ?l)%list with ([Connect] ++ l)%list.
  rewrite !count_app.
  rewrite (start_egress_counts _ _ _ He).
  rewrite (resolve_counts ctx p) by (intros line; now apply He).
  unfold count at 1. simpl. now rewrite Hp.
Qed.

Lemma entrypoint_count_unresolved w ctx p e :
  connect w = Ok tt ->
  outcome (resolve_phone_number ctx) = Raise e ->
  p Connect = false ->
  (forall ev, egress_event ev = true -> p ev = false) ->
  count p (trace (entrypoint w ctx)) = 0
  /\ outcome (entrypoint w ctx) = Raise e.
Proof.
  intros Hc Hr Hp He. rewrite (entrypoint_connected _ _ Hc).
  rewrite serve_call_resolved, Hr. simpl trace. split; [| reflexivity].
  change (Connect :: ?l)%list with ([Connect] ++ l)%list.
  rewrite !count_app.
  rewrite (start_egress_counts _ _ _ He).
  rewrite (resolve_counts ctx p) by (intros line; now apply He).
  unfold count at 1. simpl. now rewrite Hp.
Qed.

Lemma entrypoint_outcome w ctx phone_number :
  connect w = Ok tt ->
  outcome (resolve_phone_number ctx) = Ok phone_number ->
  outcome (entrypoint w ctx) = outcome (call_and_serve w ctx phone_number).
Proof.
  intros Hc Hr. rewrite (entrypoint_connected _ _ Hc).
  now rewrite serve_call_resolved, Hr.
Qed.

Lemma entrypoint_in w ctx phone_number ev :
  connect w = Ok tt ->
  outcome (resolve_phone_number ctx) = Ok phone_number ->
  In ev (trace (call_and_serve w ctx phone_number)) ->
  In ev (trace (entrypoint w ctx)).
Proof.
  intros Hc Hr Hin. rewrite (entrypoint_connected _ _ Hc).
  rewrite serve_call_resolved, Hr. simpl. right.
  apply in_or_app. right. apply in_or_app. now right.
Qed.

(** From membership in a list written out, to the cases. *)
Ltac in_cases H :=
  simpl in H;
  repeat (destruct H as [H | H]; [try discriminate H |]);
  try contradiction.

Lemma dial_in_call_and_serve w ctx phone_number req :
  In (CreateSIPParticipant req) (trace (call_and_serve w ctx phone_number)) ->
  exists number, phone_number = VStr number /\ req = dial_request ctx number.
Proof.
  intros Hin.
  destruct (phone_number_cases phone_number)
    as [Hf | [(number & -> & Hne) | (Ht & Hn)]].
  - rewrite (call_and_serve_inbound _ _ _ Hf), run_session_cases in Hin.
    destruct (new_agent_session w session_config) as [[] | e];
      [destruct (session_start w (start_options ctx)) as [[] | e] |];
      in_cases Hin.
  - rewrite (call_and_serve_number _ _ _ Hne) in Hin.
    destruct (create_sip_participant w (dial_request ctx number)) as [[] | []];
      try (in_cases Hin; injection Hin as <-; now exists number).
    rewrite run_session_cases in Hin.
    destruct (new_agent_session w session_config) as [[] | e];
      [destruct (session_start w (start_options ctx)) as [[] | e];
       [destruct (truthy (VStr number)) |] |];
      in_cases Hin; injection Hin as <-; now exists number.
  - rewrite (call_and_serve_not_a_number _ _ _ Ht Hn) in Hin. in_cases Hin.
Qed.

(** ** The job: what the claims say *)

(** C9.  Every dial request the entrypoint issues carries the fixed trunk
    identifier [ST_p7QcFHJKXXUM], the resolved phone number as destination,
    the same number as participant identity, and wait-for-answer set. *)
Theorem dial_request_fields w ctx req :
  In (CreateSIPParticipant req) (trace (entrypoint w ctx)) ->
  exists number,
    outcome (resolve_phone_number ctx) = Ok (VStr number)
    /\ sip_trunk_id req = "ST_p7QcFHJKXXUM"
    /\ sip_call_to req = number
    /\ participant_identity req = number
    /\ wait_until_answered req = true
    /\ sip_room_name req = room_name ctx.
Proof.
  intros Hin. destruct (connect w) as [[] | e] eqn:Hc.
  - rewrite (entrypoint_connected _ _ Hc) in Hin. simpl in Hin.
    destruct Hin as [Hin | Hin]; [discriminate |].
    apply in_app_or in Hin as [Hin | Hin].
    + pose proof (start_egress_events w ctx) as F.
      rewrite Forall_forall in F. apply F in Hin. discriminate.
    + pose proof (resolve_events ctx) as F. rewrite Forall_forall in F.
      rewrite serve_call_resolved in Hin.
      destruct (outcome (resolve_phone_number ctx)) as [phone_number | e];
        simpl in Hin.
      * apply in_app_or in Hin as [Hin | Hin];
          [apply F in Hin; discriminate |].
        apply dial_in_call_and_serve in Hin as (number & -> & ->).
        exists number. repeat split.
      * apply F in Hin. discriminate.
  - rewrite (entrypoint_refused _ _ _ Hc) in Hin. in_cases Hin.
Qed.


(** X16.  Metadata that is absent or empty, text that [json.loads] rejects
    with [JSONDecodeError], and an object without a [phone_number] entry all
    resolve to no number, hence to an inbound job, and nothing is dialled. *)
Lemma metadata_without_number_is_inbound w ctx :
  truthy_env (job_metadata ctx) = false
  \/ (exists text,
        job_metadata ctx = Some text /\ text <> ""
        /\ (json_loads text = Raise JSONDecodeError
            \/ exists entries,
                 json_loads text = Ok (VDict entries)
                 /\ dict_lookup "phone_number" entries = None)) ->
  outcome (resolve_phone_number ctx) = Ok VNone
  /\ call_intent VNone = Inbound
  /\ count is_dial (trace (entrypoint w ctx)) = 0.
Proof.
  intros H.
  assert (outcome (resolve_phone_number ctx) = Ok VNone) as Hr.
  { destruct H as [H | (text & Hm & Hne & [Hl | (entries & Hl & Hp)])].
    - now rewrite (resolve_absent _ H).
    - now rewrite (resolve_loaded _ _ Hm Hne), Hl.
    - now rewrite (resolve_loaded _ _ Hm Hne), Hl, Hp. }
  split; [exact Hr |]. split; [reflexivity |].
  destruct (connect w) as [[] | e] eqn:Hc.
  - rewrite (entrypoint_count w ctx is_dial _ Hc Hr);
      [| reflexivity | now intros []].
    rewrite call_and_serve_inbound by reflexivity.
    rewrite run_session_count by reflexivity.
    destruct (new_agent_session w session_config) as [[] | ?];
      [destruct (session_start w (start_options ctx)) as [[] | ?] |];
      reflexivity.
  - now rewrite (entrypoint_refused _ _ _ Hc).
Qed.

(** C3, at the input on which the code departs from it.  Metadata that
    decodes to anything but an object has no [phone_number] field, yet the
    job does not go on as inbound: [metadata.get] raises [AttributeError],
    which the handler for [JSONDecodeError] lets through, and the entrypoint
    ends there, before any session. *)
Theorem metadata_not_an_object_is_fatal w ctx text decoded :
  connect w = Ok tt ->
  job_metadata ctx = Some text ->
  text <> "" ->
  json_loads text = Ok decoded ->
  (forall entries, decoded <> VDict entries) ->
  outcome (resolve_phone_number ctx) = Raise AttributeError
  /\ outcome (entrypoint w ctx) = Raise AttributeError
  /\ job_outcome (entrypoint w ctx) = Crashed AttributeError
  /\ count is_session (trace (entrypoint w ctx)) = 0
  /\ count is_greeting (trace (entrypoint w ctx)) = 0.
Proof.
  intros Hc Hm Hne Hl Hd.
  assert (outcome (resolve_phone_number ctx) = Raise AttributeError) as Hr.
  { rewrite (resolve_loaded _ _ Hm Hne), Hl.
    destruct decoded; try reflexivity. now destruct (Hd entries). }
  split; [exact Hr |].
  destruct (entrypoint_count_unresolved w ctx is_session _ Hc Hr)
    as [Hs Ho]; [reflexivity | now intros [] |].
  destruct (entrypoint_count_unresolved w ctx is_greeting _ Hc Hr)
    as [Hg _]; [reflexivity | now intros [] |].
  unfold job_outcome. rewrite Ho. repeat split; assumption.
Qed.

(** *** Inbound jobs *)

Lemma call_intent_inbound phone_number :
  call_intent phone_number = Inbound <-> truthy phone_number = false.
Proof.
  unfold call_intent. destruct (truthy phone_number); split; congruence.
Qed.

Lemma greetings_call_and_serve w ctx phone_number :
  count is_greeting (trace (call_and_serve w ctx phone_number))
  = if truthy phone_number then 0
    else match new_agent_session w session_config,
               session_start w (start_options ctx) with
         | Ok _, Ok _ => 1
         | _, _ => 0
         end.
Proof.
  destruct (phone_number_cases phone_number)
    as [Hf | [(number & -> & Hne) | (Ht & Hn)]].
  - rewrite (call_and_serve_inbound _ _ _ Hf), Hf.
    now rewrite run_session_count by reflexivity.
  - rewrite (call_and_serve_number _ _ _ Hne).
    assert (truthy (VStr number) = true) as Ht
        by (simpl; now apply String.eqb_neq in Hne as ->).
    rewrite Ht.
    destruct (create_sip_participant w (dial_request ctx number)) as [[] | []];
      try reflexivity.
    simpl trace. change (count is_greeting (?a :: ?b :: ?c :: ?l))
      with (count is_greeting l).
    rewrite run_session_count, Ht by reflexivity.
    destruct (new_agent_session w session_config) as [[] | ?];
      [destruct (session_start w (start_options ctx)) as [[] | ?] |];
      reflexivity.
  - now rewrite (call_and_serve_not_a_number _ _ _ Ht Hn), Ht.
Qed.

Lemma greetings_entrypoint w ctx :
  count is_greeting (trace (entrypoint w ctx))
  = match connect w, outcome (resolve_phone_number ctx) with
    | Ok _, Ok phone_number =>
        if truthy phone_number then 0
        else match new_agent_session w session_config,
                   session_start w (start_options ctx) with
             | Ok _, Ok _ => 1
             | _, _ => 0
             end
    | _, _ => 0
    end.
Proof.
  destruct (connect w) as [[] | e] eqn:Hc.
  - destruct (outcome (resolve_phone_number ctx)) as [phone_number | e] eqn:Hr.
    + rewrite (entrypoint_count w ctx is_greeting phone_number Hc Hr);
        [apply greetings_call_and_serve | reflexivity | now intros []].
    + now apply (entrypoint_count_unresolved w ctx is_greeting e Hc Hr);
        [| intros []].
  - now rewrite (entrypoint_refused _ _ _ Hc).
Qed.

Lemma session_starts_entrypoint w ctx :
  In (SessionStart (start_options ctx)) (trace (entrypoint w ctx)) ->
  connect w = Ok tt /\ new_agent_session w session_config = Ok tt.
Proof.
  intros Hin. destruct (connect w) as [[] | e] eqn:Hc.
  - split; [reflexivity |].
    rewrite (entrypoint_connected _ _ Hc) in Hin. simpl in Hin.
    destruct Hin as [Hin | Hin]; [discriminate |].
    apply in_app_or in Hin as [Hin | Hin].
    { pose proof (start_egress_events w ctx) as F.
      rewrite Forall_forall in F. apply F in Hin. discriminate. }
    pose proof (resolve_events ctx) as F. rewrite Forall_forall in F.
    rewrite serve_call_resolved in Hin.
    destruct (outcome (resolve_phone_number ctx)) as [phone_number | e];
      simpl in Hin; [| apply F in Hin; discriminate].
    apply in_app_or in Hin as [Hin | Hin]; [apply F in Hin; discriminate |].
    destruct (phone_number_cases phone_number)
      as [Hf | [(number & -> & Hne) | (Ht & Hn)]].
    + rewrite (call_and_serve_inbound _ _ _ Hf), run_session_cases in Hin.
      destruct (new_agent_session w session_config) as [[] | e];
        [reflexivity | in_cases Hin].
    + rewrite (call_and_serve_number _ _ _ Hne) in Hin.
      destruct (create_sip_participant w (dial_request ctx number))
        as [[] | []]; try (in_cases Hin; fail).
      rewrite run_session_cases in Hin.
      destruct (new_agent_session w session_config) as [[] | e];
        [reflexivity | in_cases Hin].
    + rewrite (call_and_serve_not_a_number _ _ _ Ht Hn) in Hin. in_cases Hin.
  - rewrite (entrypoint_refused _ _ _ Hc) in Hin. in_cases Hin.
Qed.

Lemma inbound_run w ctx phone_number :
  connect w = Ok tt ->
  outcome (resolve_phone_number ctx) = Ok phone_number ->
  truthy phone_number = false ->
  new_agent_session w session_config = Ok tt ->
  session_start w (start_options ctx) = Ok tt ->
  entrypoint w ctx
  = ((Connect :: trace (start_egress w ctx)
        ++ trace (resolve_phone_number ctx)
        ++ [NewAgentSession session_config;
            SessionStart (start_options ctx);
            GenerateReply greeting_instructions])%list,
     Ok tt).
Proof.
  intros Hc Hr Hf Hn Hs. rewrite (entrypoint_connected _ _ Hc).
  rewrite serve_call_resolved, Hr. simpl.
  rewrite (call_and_serve_inbound _ _ _ Hf), run_session_cases, Hn, Hs.
  reflexivity.
Qed.

(** C5.  A run issues at most one greeting request.  It issues exactly one
    precisely when the room is connected, the call intent is inbound, and
    building and starting the session succeed; the session has then been
    started in the run and the request comes right after the start.  A job
    whose intent is outbound issues none. *)
Theorem greeting_once_inbound_only w ctx :
  count is_greeting (trace (entrypoint w ctx)) <= 1
  /\ (count is_greeting (trace (entrypoint w ctx)) = 1 <->
      connect w = Ok tt
      /\ (exists phone_number,
            outcome (resolve_phone_number ctx) = Ok phone_number
            /\ call_intent phone_number = Inbound)
      /\ new_agent_session w session_config = Ok tt
      /\ session_start w (start_options ctx) = Ok tt)
  /\ (count is_greeting (trace (entrypoint w ctx)) = 1 ->
      session_started w ctx (trace (entrypoint w ctx))
      /\ exists before,
           trace (entrypoint w ctx)
           = (before ++ [SessionStart (start_options ctx);
                         GenerateReply greeting_instructions])%list)
  /\ (forall phone_number number,
        outcome (resolve_phone_number ctx) = Ok phone_number ->
        call_intent phone_number = Outbound number ->
        count is_greeting (trace (entrypoint w ctx)) = 0).
Proof.
  pose proof (greetings_entrypoint w ctx) as Hg.
  assert (count is_greeting (trace (entrypoint w ctx)) = 1 <->
          connect w = Ok tt
          /\ (exists phone_number,
                outcome (resolve_phone_number ctx) = Ok phone_number
                /\ call_intent phone_number = Inbound)
          /\ new_agent_session w session_config = Ok tt
          /\ session_start w (start_options ctx) = Ok tt) as Hiff.
  { rewrite Hg. split.
    - destruct (connect w) as [[] |]; [| discriminate].
      destruct (outcome (resolve_phone_number ctx)) as [phone_number |];
        [| discriminate].
      destruct (truthy phone_number) eqn:Ht; [discriminate |].
      destruct (new_agent_session w session_config) as [[] |];
        [| discriminate].
      destruct (session_start w (start_options ctx)) as [[] |];
        [| discriminate].
      intros _. split; [reflexivity |]. split; [| now split].
      exists phone_number. split; [reflexivity | now apply call_intent_inbound].
    - intros (Hc & (phone_number & Hr & Hi) & Hn & Hs).
      apply call_intent_inbound in Hi. now rewrite Hc, Hr, Hi, Hn, Hs. }
  split; [| split; [exact Hiff | split]].
  - rewrite Hg.
    destruct (connect w) as [[] |]; [| lia].
    destruct (outcome (resolve_phone_number ctx)) as [phone_number |]; [| lia].
    destruct (truthy phone_number); [lia |].
    destruct (new_agent_session w session_config) as [[] |]; [| lia].
    destruct (session_start w (start_options ctx)) as [[] |]; lia.
  - intros Hone.
    apply Hiff in Hone as (Hc & (phone_number & Hr & Hi) & Hn & Hs).
    apply call_intent_inbound in Hi.
    rewrite (inbound_run _ _ _ Hc Hr Hi Hn Hs). simpl. split.
    + split; [| exact Hs]. right.
      apply in_or_app. right. apply in_or_app. right. simpl. tauto.
    + exists (Connect :: trace (start_egress w ctx)
                ++ trace (resolve_phone_number ctx)
                ++ [NewAgentSession session_config])%list.
      simpl. now rewrite <- !app_assoc.
  - intros phone_number number Hr Hi. rewrite Hg, Hr.
    destruct (connect w) as [[] |]; [| reflexivity].
    unfold call_intent in Hi.
    destruct (truthy phone_number); [reflexivity | discriminate].
Qed.

(** C10.  Metadata that decodes to an object whose [phone_number] is the empty
    string makes an inbound job: nothing is dialled, the run is the one of the
    same job without metadata, and when connecting and the session succeed
    the session is started and the greeting requested. *)
Theorem empty_phone_number_is_inbound w ctx text entries :
  job_metadata ctx = Some text ->
  text <> "" ->
  json_loads text = Ok (VDict entries) ->
  dict_lookup "phone_number" entries = Some (VStr "") ->
  outcome (resolve_phone_number ctx) = Ok (VStr "")
  /\ call_intent (VStr "") = Inbound
  /\ count is_dial (trace (entrypoint w ctx)) = 0
  /\ entrypoint w ctx
     = entrypoint w {| room_name := room_name ctx; job_metadata := None |}
  /\ (connect w = Ok tt ->
      new_agent_session w session_config = Ok tt ->
      session_start w (start_options ctx) = Ok tt ->
      outcome (entrypoint w ctx) = Ok tt
      /\ In (SessionStart (start_options ctx)) (trace (entrypoint w ctx))
      /\ In (GenerateReply greeting_instructions) (trace (entrypoint w ctx))
      /\ count is_greeting (trace (entrypoint w ctx)) = 1).
Proof.
  intros Hm Hne Hl Hp.
  assert (resolve_phone_number ctx = ([], Ok (VStr ""))) as Hres
      by now rewrite (resolve_loaded _ _ Hm Hne), Hl, Hp.
  assert (outcome (resolve_phone_number ctx) = Ok (VStr "")) as Hr
      by now rewrite Hres.
  split; [exact Hr |]. split; [reflexivity |]. split; [| split].
  - destruct (connect w) as [[] | e] eqn:Hc.
    + rewrite (entrypoint_count w ctx is_dial _ Hc Hr);
        [| reflexivity | now intros []].
      rewrite call_and_serve_inbound by reflexivity.
      rewrite run_session_count by reflexivity.
      destruct (new_agent_session w session_config) as [[] | ?];
        [destruct (session_start w (start_options ctx)) as [[] | ?] |];
        reflexivity.
    + now rewrite (entrypoint_refused _ _ _ Hc).
  - unfold entrypoint, serve_call. rewrite Hres.
    rewrite (resolve_absent {| room_name := room_name ctx; job_metadata := None |})
      by reflexivity.
    simpl. rewrite call_and_serve_inbound by reflexivity.
    rewrite (call_and_serve_inbound w {| room_name := room_name ctx;
                                         job_metadata := None |} VNone)
      by reflexivity.
    reflexivity.
  - intros Hc Hn Hs.
    rewrite greetings_entrypoint, Hc, Hr, Hn, Hs.
    rewrite (inbound_run _ _ _ Hc Hr eq_refl Hn Hs). simpl.
    repeat split.
    + right. apply in_or_app. right. apply in_or_app. right. simpl. tauto.
    + right. apply in_or_app. right. apply in_or_app. right. simpl. tauto.
Qed.

(** *** The recording request and the rest of the job *)

Lemma call_and_serve_same w w' ctx phone_number :
  same_outside_egress w w' ->
  call_and_serve w' ctx phone_number = call_and_serve w ctx phone_number.
Proof.
  intros (_ & Hd & Hn & Hs).
  assert (forall p, run_session w' ctx p = run_session w ctx p) as Hrun
      by (intros p; now rewrite !run_session_cases, Hn, Hs).
  unfold call_and_serve, place_call. rewrite Hrun.
  destruct (truthy phone_number); [| reflexivity].
  destruct (sip_request ctx phone_number) as [req | e]; [| reflexivity].
  simpl. now rewrite Hd.
Qed.

Lemma serve_call_same w w' ctx :
  same_outside_egress w w' -> serve_call w' ctx = serve_call w ctx.
Proof.
  intros H. rewrite !serve_call_resolved.
  destruct (outcome (resolve_phone_number ctx)); [| reflexivity].
  now rewrite (call_and_serve_same _ _ _ _ H).
Qed.

Lemma existsb_none (p : event -> bool) t :
  Forall (fun ev => p ev = false) t -> existsb p t = false.
Proof.
  induction 1 as [| ev t Hev _ IH]; simpl; [reflexivity | now rewrite Hev].
Qed.

Lemma job_outcome_entrypoint w ctx :
  connect w = Ok tt ->
  job_outcome (entrypoint w ctx) = job_outcome (serve_call w ctx).
Proof.
  intros Hc. unfold job_outcome. rewrite (entrypoint_connected _ _ Hc). simpl.
  rewrite existsb_app, (existsb_none is_shutdown (trace (start_egress w ctx))).
  - reflexivity.
  - eapply Forall_impl; [| apply start_egress_events]. now intros [].
Qed.

(** C2.  When the recording request fails, at any of its steps, the exception
    is caught and logged and the entrypoint goes on: what follows, the
    outcome of the entrypoint and the outcome of the job are those of any
    world that differs only in its answers to the recording request; an
    inbound job whose session succeeds still starts the session and sends the
    greeting. *)
Theorem egress_failure_is_discarded w ctx e :
  connect w = Ok tt ->
  egress_failure w ctx = Some e ->
  outcome (start_egress w ctx) = Ok tt
  /\ (exists before,
        trace (start_egress w ctx)
        = (before ++ [Print ("Error starting egress: " ++ exn_str e)])%list)
  /\ entrypoint w ctx
     = ((Connect :: trace (start_egress w ctx) ++ trace (serve_call w ctx))%list,
        outcome (serve_call w ctx))
  /\ (forall w',
        same_outside_egress w w' ->
        serve_call w' ctx = serve_call w ctx
        /\ outcome (entrypoint w' ctx) = outcome (entrypoint w ctx)
        /\ job_outcome (entrypoint w' ctx) = job_outcome (entrypoint w ctx))
  /\ (forall phone_number,
        outcome (resolve_phone_number ctx) = Ok phone_number ->
        call_intent phone_number = Inbound ->
        new_agent_session w session_config = Ok tt ->
        session_start w (start_options ctx) = Ok tt ->
        outcome (entrypoint w ctx) = Ok tt
        /\ job_outcome (entrypoint w ctx) = Completed
        /\ session_started w ctx (trace (entrypoint w ctx))
        /\ count is_greeting (trace (entrypoint w ctx)) = 1).
Proof.
  intros Hc He.
  split; [apply start_egress_returns |].
  split; [now apply start_egress_logs_failure |].
  split; [now apply entrypoint_connected |].
  split.
  - intros w' Hsame.
    assert (connect w' = Ok tt) as Hc' by (destruct Hsame as [<- _]; exact Hc).
    pose proof (serve_call_same _ _ ctx Hsame) as Hserve.
    split; [exact Hserve |].
    rewrite !job_outcome_entrypoint by assumption.
    rewrite (entrypoint_connected _ _ Hc), (entrypoint_connected _ _ Hc').
    now rewrite Hserve.
  - intros phone_number Hr Hi Hn Hs.
    apply call_intent_inbound in Hi.
    assert (In (SessionStart (start_options ctx)) (trace (entrypoint w ctx)))
      as Hin.
    { rewrite (inbound_run _ _ _ Hc Hr Hi Hn Hs). simpl. right.
      apply in_or_app. right. apply in_or_app. right. simpl. tauto. }
    split; [now rewrite (inbound_run _ _ _ Hc Hr Hi Hn Hs) |].
    split; [| split; [now split |]].
    + rewrite (job_outcome_entrypoint _ _ Hc). unfold job_outcome.
      rewrite serve_call_resolved, Hr. simpl.
      rewrite (call_and_serve_inbound _ _ _ Hi), run_session_cases, Hn, Hs.
      simpl. rewrite existsb_app, (existsb_none is_shutdown); [reflexivity |].
      eapply Forall_impl; [| apply resolve_events]. now intros [].
    + now rewrite greetings_entrypoint, Hc, Hr, Hi, Hn, Hs.
Qed.

(** ** More on the weather tool *)

Lemma lift_bind {A B} (r : result A) (k : A -> M B) :
  bind (lift r) k = match r with Ok a => k a | Raise e => ([], Raise e) end.
Proof.
  destruct r as [a | e]; simpl; [| reflexivity]. now destruct (k a).
Qed.

Lemma call_bind {A B} (ev : event) (a : A) (k : A -> M B) :
  bind (call ev (Ok a)) k = ((ev :: trace (k a))%list, outcome (k a)).
Proof.
  unfold call. simpl. now destruct (k a).
Qed.

Lemma get_weather_decoded w location data :
  key_is_set w = true ->
  http_get w (request_url w location) = Response 200 (Ok data) ->
  get_weather w location
  = ((HttpGet (request_url w location) :: trace (read_body location data))%list,
     outcome (read_body location data)).
Proof.
  unfold key_is_set, get_weather, request_url, session_get.
  intros -> ->. cbn [negb]. rewrite call_bind.
  cbn beta iota. change (negb (200 =? 200)%Z) with false. cbn iota.
  rewrite lift_bind. reflexivity.
Qed.

(** Reading the body makes no call. *)
Lemma weather_missing_run data :
  weather_missing data = ([], outcome (weather_missing data)).
Proof.
  unfold weather_missing. rewrite lift_bind.
  destruct (py_in "weather" data) as [[] |]; cbn [negb]; try reflexivity.
  rewrite lift_bind. now destruct (getitem_key data "weather").
Qed.

Lemma read_body_run location data :
  read_body location data = ([], outcome (read_body location data)).
Proof.
  unfold read_body. rewrite weather_missing_run.
  destruct (outcome (weather_missing data)) as [[] | e]; try reflexivity.
  cbn [bind app]. rewrite lift_bind.
  destruct (getitem_key data "weather") as [weather | e]; [| reflexivity].
  rewrite lift_bind.
  destruct (getitem_0 weather) as [first | e]; [| reflexivity].
  rewrite lift_bind.
  destruct (getitem_key first "description") as [description | e];
    [| reflexivity].
  rewrite lift_bind.
  destruct (getitem_key data "main") as [main | e]; [| reflexivity].
  rewrite lift_bind.
  now destruct (getitem_key main "temp") as [temp | e].
Qed.

(** X1.  [get_weather] makes exactly one request when an API key is set,
    whatever the provider answers, and none otherwise; the request goes to
    the OpenWeather URL with the location, the key and metric units. *)
Theorem get_weather_requests_once w location :
  trace (get_weather w location)
  = if truthy_env (environ w "OPENWEATHER_API_KEY")
    then [HttpGet ("http://api.openweathermap.org/data/2.5/weather?q=" ++ location
                     ++ "&appid=" ++ the (environ w "OPENWEATHER_API_KEY")
                     ++ "&units=metric")]
    else [].
Proof.
  change (trace (get_weather w location)
          = if key_is_set w then [HttpGet (request_url w location)] else []).
  destruct (key_is_set w) eqn:Hkey;
    [| now rewrite (get_weather_no_key _ _ Hkey)].
  destruct (http_get w (request_url w location)) as [e | status body] eqn:Hget.
  - now rewrite (get_weather_network_error _ _ _ Hkey Hget).
  - destruct (Z.eq_dec status 200) as [-> | Hs];
      [| now rewrite (get_weather_other_status _ _ _ _ Hkey Hget Hs)].
    destruct body as [data | e];
      [| now rewrite (get_weather_bad_body _ _ _ Hkey Hget)].
    rewrite (get_weather_decoded _ _ _ Hkey Hget), read_body_run.
    reflexivity.
Qed.

Lemma outcome_lift_bind {A B} (r : result A) (k : A -> M B) :
  outcome (bind (lift r) k)
  = match r with Ok a => outcome (k a) | Raise e => Raise e end.
Proof.
  rewrite lift_bind. now destruct r.
Qed.

Lemma weather_missing_object entries :
  outcome (weather_missing (VDict entries))
  = Ok match dict_lookup "weather" entries with
       | Some weather => negb (truthy weather)
       | None => true
       end.
Proof.
  now rewrite weather_missing_dict.
Qed.

(** What lines 57-63 give on an object, step by step. *)
Lemma read_body_object location entries :
  outcome (read_body location (VDict entries))
  = match dict_lookup "weather" entries with
    | None => Ok no_data_sentence
    | Some weather =>
        if truthy weather then
          match getitem_0 weather with
          | Raise e => Raise e
          | Ok first =>
              match getitem_key first "description" with
              | Raise e => Raise e
              | Ok description =>
                  match dict_lookup "main" entries with
                  | None => Raise KeyError
                  | Some main =>
                      match getitem_key main "temp" with
                      | Raise e => Raise e
                      | Ok temp =>
                          Ok (weather_sentence location description temp)
                      end
                  end
              end
          end
        else Ok no_data_sentence
    end.
Proof.
  unfold read_body. rewrite outcome_bind, weather_missing_object.
  destruct (dict_lookup "weather" entries) as [weather |] eqn:Hw;
    [| reflexivity].
  destruct (truthy weather); cbn [negb]; [| reflexivity].
  rewrite outcome_lift_bind. cbn [getitem_key]. rewrite Hw.
  rewrite outcome_lift_bind.
  destruct (getitem_0 weather) as [first | e]; [| reflexivity].
  rewrite outcome_lift_bind.
  destruct (getitem_key first "description") as [description | e];
    [| reflexivity].
  rewrite outcome_lift_bind.
  destruct (dict_lookup "main" entries) as [main |]; [| reflexivity].
  rewrite outcome_lift_bind.
  now destruct (getitem_key main "temp").
Qed.

(** The same on a body that is not an object. *)
Lemma read_body_other location data :
  (forall entries, data <> VDict entries) ->
  outcome (read_body location data)
  = match data with
    | VList items =>
        if existsb (is_str "weather") items then Raise TypeError
        else Ok no_data_sentence
    | VStr text =>
        if contains "weather" text then Raise TypeError
        else Ok no_data_sentence
    | _ => Raise TypeError
    end.
Proof.
  intros Hd. unfold read_body, weather_missing.
  rewrite outcome_bind, outcome_lift_bind.
  destruct data as [| b | n | r | text | items | entries]; try reflexivity.
  - cbn [py_in]. destruct (contains "weather" text); reflexivity.
  - cbn [py_in]. destruct (existsb (is_str "weather") items); reflexivity.
  - now destruct (Hd entries).
Qed.

Lemma getitem_key_raises v k e :
  getitem_key v k = Raise e -> e = TypeError \/ e = KeyError.
Proof using Type*.
  destruct v as [| b | n | r | s | items | entries]; simpl; intros H;
    try (injection H as <-; auto; fail).
  destruct (dict_lookup k entries); [discriminate H |].
  injection H as <-. auto.
Qed.

(** The test of line 57 keeps [[0]] in range. *)
Lemma getitem_0_raises v e :
  truthy v = true ->
  getitem_0 v = Raise e -> e = TypeError \/ e = KeyError.
Proof using Type*.
  destruct v as [| b | n | r | [| c s] | [| x items] | entries]; simpl;
    intros Ht H; try discriminate Ht; try discriminate H;
    injection H as <-; auto.
Qed.

Lemma read_body_raises location data e :
  outcome (read_body location data) = Raise e ->
  e = TypeError \/ e = KeyError.
Proof using Type*.
  destruct data as [| b | n | r | text | items | entries].
  1-6: rewrite read_body_other by discriminate.
  1-4: intros [= <-]; now left.
  - destruct (contains "weather" text); [intros [= <-]; now left | discriminate].
  - destruct (existsb (is_str "weather") items);
      [intros [= <-]; now left | discriminate].
  - rewrite read_body_object.
    destruct (dict_lookup "weather" entries) as [weather |]; [| discriminate].
    destruct (truthy weather) eqn:Ht; [| discriminate].
    destruct (getitem_0 weather) as [first | e0] eqn:H0.
    2: { intros [= <-]. now apply (getitem_0_raises weather). }
    destruct (getitem_key first "description") as [description | e0] eqn:Hd.
    2: { intros [= <-]. now apply (getitem_key_raises first "description"). }
    destruct (dict_lookup "main" entries) as [main |].
    2: { intros [= <-]. now right. }
    destruct (getitem_key main "temp") as [temp | e0] eqn:Hm; [discriminate |].
    intros [= <-]. now apply (getitem_key_raises main "temp").
Qed.

Lemma read_body_returns location data sentence :
  outcome (read_body location data) = Ok sentence ->
  sentence = no_data_sentence
  \/ exists description temp,
       sentence = weather_sentence location description temp.
Proof using Type*.
  destruct data as [| b | n | r | text | items | entries].
  1-6: rewrite read_body_other by discriminate.
  1-4: discriminate.
  - destruct (contains "weather" text); [discriminate | intros [= <-]; now left].
  - destruct (existsb (is_str "weather") items);
      [discriminate | intros [= <-]; now left].
  - rewrite read_body_object.
    destruct (dict_lookup "weather" entries) as [weather |];
      [| intros [= <-]; now left].
    destruct (truthy weather); [| intros [= <-]; now left].
    destruct (getitem_0 weather) as [first |]; [| discriminate].
    destruct (getitem_key first "description") as [description |];
      [| discriminate].
    destruct (dict_lookup "main" entries) as [main |]; [| discriminate].
    destruct (getitem_key main "temp") as [temp |]; [| discriminate].
    intros [= <-]. right. now exists description, temp.
Qed.

(** X2.  An exception that leaves [get_weather] is the one the request
    raised, the one decoding the body raised, or a [KeyError] or [TypeError]
    from reading a decoded 200 body; the emptiness test of line 57 keeps the
    index of line 60 in range, so reading never gives [IndexError]. *)
Theorem get_weather_raises_only w location e :
  outcome (get_weather w location) = Raise e ->
  http_get w (request_url w location) = NetworkError e
  \/ http_get w (request_url w location) = Response 200 (Raise e)
  \/ (exists data,
        http_get w (request_url w location) = Response 200 (Ok data)
        /\ (e = TypeError \/ e = KeyError)).
Proof.
  destruct (key_is_set w) eqn:Hkey;
    [| now rewrite (get_weather_no_key _ _ Hkey)].
  destruct (http_get w (request_url w location)) as [e0 | status body] eqn:Hget.
  - rewrite (get_weather_network_error _ _ _ Hkey Hget). intros [= <-]. now left.
  - destruct (Z.eq_dec status 200) as [-> | Hs];
      [| now rewrite (get_weather_other_status _ _ _ _ Hkey Hget Hs)].
    destruct body as [data | e0].
    + rewrite (get_weather_decoded _ _ _ Hkey Hget). simpl. intros Hr.
      right. right. exists data. split; [reflexivity |].
      now apply (read_body_raises location data).
    + rewrite (get_weather_bad_body _ _ _ Hkey Hget). intros [= <-].
      right. now left.
Qed.

(** X3.  A sentence [get_weather] returns is one of four: the key sentence,
    the status sentence for a status other than 200, the no-data sentence, or
    the report; it is never the empty string. *)
Theorem get_weather_sentences w location sentence :
  outcome (get_weather w location) = Ok sentence ->
  (sentence = "OpenWeather API key is not set."
   \/ (exists status,
         status <> 200%Z
         /\ sentence = "Sorry, I couldn't get the weather. Status code: "
                         ++ str_int status)
   \/ sentence = "Sorry, I couldn't find any weather data for that location."
   \/ (exists description temp,
         sentence = "The weather in " ++ location ++ " is " ++ py_str description
                      ++ " with a temperature of " ++ py_str temp ++ "°C."))
  /\ sentence <> "".
Proof using Type*.
  intros H.
  assert (sentence = no_key_sentence
          \/ (exists status, status <> 200%Z /\ sentence = status_sentence status)
          \/ sentence = no_data_sentence
          \/ (exists description temp,
                sentence = weather_sentence location description temp)) as Hs.
  { destruct (key_is_set w) eqn:Hkey.
    2: { rewrite (get_weather_no_key _ _ Hkey) in H. injection H as <-. now left. }
    destruct (http_get w (request_url w location)) as [e0 | status body] eqn:Hget.
    { now rewrite (get_weather_network_error _ _ _ Hkey Hget) in H. }
    destruct (Z.eq_dec status 200) as [-> | Hs].
    2: { rewrite (get_weather_other_status _ _ _ _ Hkey Hget Hs) in H.
         injection H as <-. right. left. now exists status. }
    destruct body as [data | e0].
    2: { now rewrite (get_weather_bad_body _ _ _ Hkey Hget) in H. }
    rewrite (get_weather_decoded _ _ _ Hkey Hget) in H. simpl in H.
    apply read_body_returns in H as [-> | Hr];
      [right; right; left; reflexivity | right; right; right; exact Hr]. }
  split; [exact Hs |].
  destruct Hs as [-> | [(status & _ & ->) | [-> | (d & t & ->)]]];
    discriminate.
Qed.

(** X4.  On a 200 response whose body is an object, [get_weather] returns a
    sentence exactly when the ["weather"] entry is absent or empty, or the
    body has a description at [weather[0]] and a temperature under [main];
    any other object raises. *)
Theorem get_weather_object_returns_iff w location entries :
  key_is_set w = true ->
  http_get w (request_url w location) = Response 200 (Ok (VDict entries)) ->
  (exists sentence, outcome (get_weather w location) = Ok sentence)
  <-> weather_absent_or_empty entries
      \/ exists description temp, weather_facts entries description temp.
Proof.
  intros Hkey Hget. split.
  - intros [sentence H].
    rewrite (get_weather_decoded _ _ _ Hkey Hget) in H. simpl in H.
    rewrite read_body_object in H. unfold weather_absent_or_empty, weather_facts.
    destruct (dict_lookup "weather" entries) as [weather |]; [| now left].
    destruct (truthy weather) eqn:Ht; [right | now left].
    destruct weather as [| b | n | r | s | [| first rest] | es];
      simpl in H; try discriminate.
    + destruct s; discriminate.
    + destruct first as [| b | n | r | s | items | fields];
        simpl in H; try discriminate.
      destruct (dict_lookup "description" fields) as [description |] eqn:Hd;
        [| discriminate].
      destruct (dict_lookup "main" entries) as [main |]; [| discriminate].
      destruct main as [| b | n | r | s | items | inner]; try discriminate.
      simpl in H. destruct (dict_lookup "temp" inner) as [temp |] eqn:Htemp;
        [| discriminate].
      exists description, temp, fields, rest, inner. repeat split; assumption.
  - intros [Hw | (description & temp & Hfacts)].
    + rewrite (get_weather_no_data _ _ _ Hkey Hget Hw). now eexists.
    + rewrite (get_weather_report _ _ _ _ _ Hkey Hget Hfacts). now eexists.
Qed.

(** X5.  A 200 body that has a weather entry but lacks the description, the
    [main] entry or the temperature is not turned into the no-data sentence:
    [get_weather] raises [KeyError]. *)
Theorem get_weather_missing_fact w location entries first rest :
  key_is_set w = true ->
  http_get w (request_url w location) = Response 200 (Ok (VDict entries)) ->
  dict_lookup "weather" entries = Some (VList (VDict first :: rest)) ->
  dict_lookup "description" first = None
  \/ dict_lookup "main" entries = None
  \/ (exists main,
        dict_lookup "main" entries = Some (VDict main)
        /\ dict_lookup "temp" main = None) ->
  outcome (get_weather w location) = Raise KeyError.
Proof.
  intros Hkey Hget Hw Hmiss.
  rewrite (get_weather_decoded _ _ _ Hkey Hget). simpl.
  rewrite read_body_object, Hw. simpl.
  destruct (dict_lookup "description" first) as [description |];
    [| reflexivity].
  destruct Hmiss as [Hd | [Hm | (main & Hm & Ht)]]; [discriminate | |].
  - now rewrite Hm.
  - rewrite Hm. simpl. now rewrite Ht.
Qed.

(** X6.  A 200 body that decodes to something other than an object never
    gives a report: a list that does not hold the string "weather" and a
    string that does not contain it give the no-data sentence, every other
    value raises [TypeError]. *)
Theorem get_weather_body_not_an_object w location data :
  key_is_set w = true ->
  http_get w (request_url w location) = Response 200 (Ok data) ->
  (forall entries, data <> VDict entries) ->
  outcome (get_weather w location)
  = match data with
    | VList items =>
        if existsb (is_str "weather") items then Raise TypeError
        else Ok "Sorry, I couldn't find any weather data for that location."
    | VStr text =>
        if contains "weather" text then Raise TypeError
        else Ok "Sorry, I couldn't find any weather data for that location."
    | _ => Raise TypeError
    end.
Proof.
  intros Hkey Hget Hd.
  rewrite (get_weather_decoded _ _ _ Hkey Hget). simpl.
  now rewrite (read_body_other _ _ Hd).
Qed.

(** ** More on the job *)

Lemma start_egress_cases w ctx :
  start_egress w ctx
  = match new_livekit_api w with
    | Raise e =>
        ([NewLiveKitAPI; Print ("Error starting egress: " ++ exn_str e)], Ok tt)
    | Ok _ =>
        match start_room_composite_egress w (egress_request w ctx) with
        | Raise e =>
            ([NewLiveKitAPI; Print "Starting room egress...";
              StartRoomCompositeEgress (egress_request w ctx);
              Print ("Error starting egress: " ++ exn_str e)], Ok tt)
        | Ok info =>
            match aclose w with
            | Raise e =>
                ([NewLiveKitAPI; Print "Starting room egress...";
                  StartRoomCompositeEgress (egress_request w ctx); AClose;
                  Print ("Error starting egress: " ++ exn_str e)], Ok tt)
            | Ok _ =>
                ([NewLiveKitAPI; Print "Starting room egress...";
                  StartRoomCompositeEgress (egress_request w ctx); AClose;
                  Print ("Egress started successfully. Egress ID: "
                           ++ str_opt (py_or (egress_id info) (egressId info)))],
                 Ok tt)
            end
        end
    end.
Proof.
  unfold start_egress, request_egress, try_except, bind, call, print.
  destruct (new_livekit_api w) as [[] | e1]; simpl; [| reflexivity].
  destruct (start_room_composite_egress w (egress_request w ctx)) as [info | e2];
    simpl; [| reflexivity].
  destruct (aclose w) as [[] | e3]; reflexivity.
Qed.

Lemma call_and_serve_events w ctx phone_number :
  Forall (fun ev => serve_event ev = true)
         (trace (call_and_serve w ctx phone_number)).
Proof.
  destruct (phone_number_cases phone_number)
    as [Hf | [(number & -> & Hne) | (Ht & Hn)]].
  - rewrite (call_and_serve_inbound _ _ _ Hf), run_session_cases.
    destruct (new_agent_session w session_config) as [[] | e];
      [destruct (session_start w (start_options ctx)) as [[] | e] |];
      simpl; repeat constructor.
  - rewrite (call_and_serve_number _ _ _ Hne).
    destruct (create_sip_participant w (dial_request ctx number)) as [[] | []];
      try (simpl; repeat constructor; fail).
    rewrite run_session_cases.
    destruct (new_agent_session w session_config) as [[] | e];
      [destruct (session_start w (start_options ctx)) as [[] | e];
       [destruct (truthy (VStr number)) |] |];
      simpl; repeat constructor.
  - rewrite (call_and_serve_not_a_number _ _ _ Ht Hn). repeat constructor.
Qed.

(** The events of a run, by the part of the entrypoint they come from. *)
Lemma entrypoint_in_inv w ctx ev :
  In ev (trace (entrypoint w ctx)) ->
  ev = Connect
  \/ (connect w = Ok tt /\ In ev (trace (start_egress w ctx)))
  \/ (connect w = Ok tt /\ In ev (trace (resolve_phone_number ctx)))
  \/ (connect w = Ok tt
      /\ exists phone_number,
           outcome (resolve_phone_number ctx) = Ok phone_number
           /\ In ev (trace (call_and_serve w ctx phone_number))).
Proof.
  intros Hin. destruct (connect w) as [[] | e] eqn:Hc.
  - rewrite (entrypoint_connected _ _ Hc) in Hin. simpl in Hin.
    destruct Hin as [<- | Hin]; [now left |].
    apply in_app_or in Hin as [Hin | Hin]; [tauto |].
    rewrite serve_call_resolved in Hin.
    destruct (outcome (resolve_phone_number ctx)) as [phone_number | e];
      simpl in Hin; [| tauto].
    apply in_app_or in Hin as [Hin | Hin]; [tauto |].
    right. right. right. split; [reflexivity |]. now exists phone_number.
  - rewrite (entrypoint_refused _ _ _ Hc) in Hin. simpl in Hin.
    destruct Hin as [<- | []]. now left.
Qed.

Lemma in_print_only (t : list event) ev :
  Forall (fun ev => is_print ev = true) t -> In ev t -> is_print ev = true.
Proof.
  intros F. rewrite Forall_forall in F. apply F.
Qed.

(** Counting in a run, part by part. *)
Lemma entrypoint_count_parts w ctx p :
  count p (trace (entrypoint w ctx))
  = match connect w with
    | Raise _ => if p Connect then 1 else 0
    | Ok _ =>
        (if p Connect then 1 else 0) + count p (trace (start_egress w ctx))
        + count p (trace (resolve_phone_number ctx))
        + match outcome (resolve_phone_number ctx) with
          | Ok phone_number => count p (trace (call_and_serve w ctx phone_number))
          | Raise _ => 0
          end
    end.
Proof.
  assert (forall t, count p (Connect :: t)
                    = (if p Connect then 1 else 0) + count p t) as Hcons
      by (intros t; unfold count; simpl; now destruct (p Connect)).
  destruct (connect w) as [[] | e] eqn:Hc.
  - rewrite (entrypoint_connected _ _ Hc), serve_call_resolved.
    cbn [trace fst]. rewrite Hcons.
    destruct (outcome (resolve_phone_number ctx)); unfold trace at 2;
      cbn [fst]; rewrite !count_app; lia.
  - rewrite (entrypoint_refused _ _ _ Hc). cbn [trace fst].
    rewrite Hcons. unfold count. simpl. lia.
Qed.

(** At most one event of a kind among those of lines 110-153, for the kinds
    the theorems below count. *)
Lemma call_and_serve_at_most_once w ctx phone_number :
  count is_dial (trace (call_and_serve w ctx phone_number)) <= 1
  /\ count is_shutdown (trace (call_and_serve w ctx phone_number)) <= 1
  /\ count is_session_build (trace (call_and_serve w ctx phone_number)) <= 1
  /\ count is_session_start (trace (call_and_serve w ctx phone_number)) <= 1
  /\ count is_greeting (trace (call_and_serve w ctx phone_number)) <= 1
  /\ count is_egress_request (trace (call_and_serve w ctx phone_number)) = 0.
Proof.
  destruct (phone_number_cases phone_number)
    as [Hf | [(number & -> & Hne) | (Ht & Hn)]].
  - rewrite (call_and_serve_inbound _ _ _ Hf), run_session_cases.
    destruct (new_agent_session w session_config) as [[] | e];
      [destruct (session_start w (start_options ctx)) as [[] | e] |];
      unfold count; simpl; lia.
  - rewrite (call_and_serve_number _ _ _ Hne).
    destruct (create_sip_participant w (dial_request ctx number)) as [[] | []];
      try (unfold count; simpl; lia).
    rewrite run_session_cases.
    destruct (new_agent_session w session_config) as [[] | e];
      [destruct (session_start w (start_options ctx)) as [[] | e];
       [destruct (truthy (VStr number)) |] |];
      unfold count; simpl; lia.
  - rewrite (call_and_serve_not_a_number _ _ _ Ht Hn). unfold count; simpl; lia.
Qed.

(** X7.  In every run each step is taken at most once: at most one
    recording request, one dial, one shutdown, one session built, one session
    start and one greeting. *)
Theorem entrypoint_steps_at_most_once w ctx :
  count is_egress_request (trace (entrypoint w ctx)) <= 1
  /\ count is_dial (trace (entrypoint w ctx)) <= 1
  /\ count is_shutdown (trace (entrypoint w ctx)) <= 1
  /\ count is_session_build (trace (entrypoint w ctx)) <= 1
  /\ count is_session_start (trace (entrypoint w ctx)) <= 1
  /\ count is_greeting (trace (entrypoint w ctx)) <= 1.
Proof.
  assert (forall p, (forall line, p (Print line) = false) ->
                    count p (trace (resolve_phone_number ctx)) = 0) as Hres
      by (intros p Hp; now apply resolve_counts).
  assert (forall p, (forall ev, egress_event ev = true -> p ev = false) ->
                    count p (trace (start_egress w ctx)) = 0) as Heg
      by (intros p Hp; now apply start_egress_counts).
  assert (count is_egress_request (trace (start_egress w ctx)) <= 1) as Hreq.
  { rewrite start_egress_cases.
    destruct (new_livekit_api w) as [[] | e1];
      [destruct (start_room_composite_egress w (egress_request w ctx))
         as [info | e2]; [destruct (aclose w) as [[] | e3] |] |];
      unfold count; simpl; lia. }
  rewrite !entrypoint_count_parts.
  destruct (connect w) as [[] | e]; [| simpl; lia].
  rewrite !Hres by reflexivity.
  rewrite (Heg is_dial), (Heg is_shutdown), (Heg is_session_build),
    (Heg is_session_start), (Heg is_greeting) by now intros [].
  destruct (outcome (resolve_phone_number ctx)) as [phone_number | e].
  - destruct (call_and_serve_at_most_once w ctx phone_number)
      as (H1 & H2 & H3 & H4 & H5 & H6).
    rewrite H6. simpl. lia.
  - simpl. lia.
Qed.

Lemma shutdown_in_call_and_serve w ctx phone_number :
  In Shutdown (trace (call_and_serve w ctx phone_number)) ->
  exists number message,
    phone_number = VStr number /\ number <> ""
    /\ create_sip_participant w (dial_request ctx number)
       = Raise (TwirpError message).
Proof.
  intros Hin.
  destruct (phone_number_cases phone_number)
    as [Hf | [(number & -> & Hne) | (Ht & Hn)]].
  - rewrite (call_and_serve_inbound _ _ _ Hf), run_session_cases in Hin.
    destruct (new_agent_session w session_config) as [[] | e];
      [destruct (session_start w (start_options ctx)) as [[] | e] |];
      in_cases Hin.
  - rewrite (call_and_serve_number _ _ _ Hne) in Hin.
    destruct (create_sip_participant w (dial_request ctx number))
      as [[] | [| | | | | message |]] eqn:Hdial;
      try (in_cases Hin; fail).
    + rewrite run_session_cases in Hin.
      destruct (new_agent_session w session_config) as [[] | e];
        [destruct (session_start w (start_options ctx)) as [[] | e];
         [destruct (truthy (VStr number)) |] |];
        in_cases Hin.
    + now exists number, message.
  - rewrite (call_and_serve_not_a_number _ _ _ Ht Hn) in Hin. in_cases Hin.
Qed.

Lemma failed_dial_run w ctx number message :
  connect w = Ok tt ->
  outcome (resolve_phone_number ctx) = Ok (VStr number) ->
  number <> "" ->
  create_sip_participant w (dial_request ctx number) = Raise (TwirpError message) ->
  outcome (entrypoint w ctx) = Ok tt
  /\ In Shutdown (trace (entrypoint w ctx)).
Proof.
  intros Hc Hr Hne Hdial. split.
  - now rewrite (entrypoint_outcome _ _ _ Hc Hr),
      (call_and_serve_number _ _ _ Hne), Hdial.
  - apply (entrypoint_in _ _ _ _ Hc Hr).
    rewrite (call_and_serve_number _ _ _ Hne), Hdial. simpl. tauto.
Qed.

(** X8.  [ctx.shutdown()] is called, and the job ends aborted, in exactly one
    situation: the metadata gave a non-empty string as phone number and the
    dial raised [TwirpError].  No other failure shuts the job down. *)
Theorem shutdown_iff_dial_failed w ctx :
  (In Shutdown (trace (entrypoint w ctx)) <->
   connect w = Ok tt
   /\ exists number message,
        outcome (resolve_phone_number ctx) = Ok (VStr number)
        /\ number <> ""
        /\ create_sip_participant w (dial_request ctx number)
           = Raise (TwirpError message))
  /\ (job_outcome (entrypoint w ctx) = Aborted <->
      In Shutdown (trace (entrypoint w ctx))).
Proof.
  assert (In Shutdown (trace (entrypoint w ctx)) ->
          connect w = Ok tt
          /\ exists number message,
               outcome (resolve_phone_number ctx) = Ok (VStr number)
               /\ number <> ""
               /\ create_sip_participant w (dial_request ctx number)
                  = Raise (TwirpError message)) as Hinv.
  { intros Hin.
    apply entrypoint_in_inv in Hin
      as [Hin | [(Hc & Hin) | [(Hc & Hin) | (Hc & phone_number & Hr & Hin)]]].
    - discriminate.
    - pose proof (start_egress_events w ctx) as F.
      rewrite Forall_forall in F. apply F in Hin. discriminate.
    - apply (in_print_only _ _ (resolve_events ctx)) in Hin. discriminate.
    - split; [exact Hc |].
      apply shutdown_in_call_and_serve in Hin
        as (number & message & -> & Hne & Hdial).
      now exists number, message. }
  split; [split; [exact Hinv |] | split].
  - intros (Hc & number & message & Hr & Hne & Hdial).
    now apply (failed_dial_run w ctx number message).
  - unfold job_outcome.
    destruct (outcome (entrypoint w ctx)); [| discriminate].
    destruct (existsb is_shutdown (trace (entrypoint w ctx))) eqn:Hex;
      [| discriminate].
    intros _. apply existsb_exists in Hex as (ev & Hin & Hev).
    now destruct ev.
  - intros Hin. destruct (Hinv Hin) as (Hc & number & message & Hr & Hne & Hdial).
    destruct (failed_dial_run w ctx number message Hc Hr Hne Hdial) as [Ho _].
    unfold job_outcome. rewrite Ho.
    assert (existsb is_shutdown (trace (entrypoint w ctx)) = true) as ->;
      [| reflexivity].
    apply existsb_exists. now exists Shutdown.
Qed.

(** X9.  The recording request of a run is for the job's room, audio only,
    with one OGG file named after the room, uploaded to bucket
    [livekit-calls] in region [eu-north-1] with the credentials of the
    environment. *)
Theorem egress_request_fields w ctx req :
  In (StartRoomCompositeEgress req) (trace (entrypoint w ctx)) ->
  egress_room_name req = room_name ctx
  /\ audio_only req = true
  /\ file_outputs req
     = [ {| file_type := OGG;
            filepath := room_name ctx ++ ".ogg";
            s3 := {| access_key := environ w "AWS_S3_ACCESS_KEY";
                     secret := environ w "AWS_S3_SECRET_KEY";
                     region := "eu-north-1";
                     bucket := "livekit-calls" |} |} ].
Proof.
  intros Hin.
  apply entrypoint_in_inv in Hin
    as [Hin | [(Hc & Hin) | [(Hc & Hin) | (Hc & phone_number & Hr & Hin)]]].
  - discriminate.
  - rewrite start_egress_cases in Hin.
    destruct (new_livekit_api w) as [[] | e1];
      [destruct (start_room_composite_egress w (egress_request w ctx))
         as [info | e2]; [destruct (aclose w) as [[] | e3] |] |];
      in_cases Hin; injection Hin as <-; repeat split.
  - apply (in_print_only _ _ (resolve_events ctx)) in Hin. discriminate.
  - pose proof (call_and_serve_events w ctx phone_number) as F.
    rewrite Forall_forall in F. apply F in Hin. discriminate.
Qed.

(** X10.  The API client opened for the recording request is closed exactly
    when the request was accepted: if building the client or starting the
    recording fails, [lkapi.aclose()] is never called. *)
Theorem aclose_iff_egress_started w ctx :
  In AClose (trace (entrypoint w ctx)) <->
  connect w = Ok tt
  /\ new_livekit_api w = Ok tt
  /\ exists info,
       start_room_composite_egress w (egress_request w ctx) = Ok info.
Proof.
  split.
  - intros Hin.
    apply entrypoint_in_inv in Hin
      as [Hin | [(Hc & Hin) | [(Hc & Hin) | (Hc & phone_number & Hr & Hin)]]].
    + discriminate.
    + split; [exact Hc |]. rewrite start_egress_cases in Hin.
      destruct (new_livekit_api w) as [[] | e1]; [| in_cases Hin].
      split; [reflexivity |].
      destruct (start_room_composite_egress w (egress_request w ctx))
        as [info | e2]; [now exists info | in_cases Hin].
    + apply (in_print_only _ _ (resolve_events ctx)) in Hin. discriminate.
    + pose proof (call_and_serve_events w ctx phone_number) as F.
      rewrite Forall_forall in F. apply F in Hin. discriminate.
  - intros (Hc & Hn & info & Hs).
    rewrite (entrypoint_connected _ _ Hc). simpl. right.
    apply in_or_app. left. rewrite start_egress_cases, Hn, Hs.
    destruct (aclose w) as [[] | e]; simpl; tauto.
Qed.

(** X11.  Any [phone_number] that tests false (the empty string, [null],
    [false], zero, an empty list or object) makes the job inbound: the run is
    the run of the same job without metadata, and nothing is dialled. *)
Theorem falsy_phone_number_is_inbound w ctx text entries value :
  job_metadata ctx = Some text ->
  text <> "" ->
  json_loads text = Ok (VDict entries) ->
  dict_lookup "phone_number" entries = Some value ->
  truthy value = false ->
  entrypoint w ctx = entrypoint w (without_metadata ctx)
  /\ count is_dial (trace (entrypoint w ctx)) = 0.
Proof.
  intros Hm Hne Hl Hp Hf.
  assert (resolve_phone_number ctx = ([], Ok value)) as Hres
      by now rewrite (resolve_loaded _ _ Hm Hne), Hl, Hp.
  assert (entrypoint w ctx = entrypoint w (without_metadata ctx)) as Heq.
  { unfold entrypoint, serve_call. rewrite Hres.
    rewrite (resolve_absent (without_metadata ctx)) by reflexivity.
    simpl. rewrite (call_and_serve_inbound _ _ _ Hf).
    rewrite (call_and_serve_inbound w (without_metadata ctx) VNone)
      by reflexivity.
    reflexivity. }
  split; [exact Heq |].
  rewrite entrypoint_count_parts.
  destruct (connect w) as [[] | e]; [| reflexivity].
  rewrite Hres. cbn [trace outcome fst snd].
  rewrite (start_egress_counts _ _ is_dial) by now intros [].
  rewrite (call_and_serve_inbound _ _ _ Hf), run_session_count by reflexivity.
  destruct (new_agent_session w session_config) as [[] | ?];
    [destruct (session_start w (start_options ctx)) as [[] | ?] |];
    reflexivity.
Qed.

(** X12.  Metadata that [json.loads] rejects costs one log line and nothing
    else: after "Error: Invalid JSON in job metadata" the job runs as the
    same job without metadata, with the same outcome. *)
Theorem undecodable_metadata_is_logged w ctx text :
  job_metadata ctx = Some text ->
  text <> "" ->
  json_loads text = Raise JSONDecodeError ->
  resolve_phone_number ctx
  = ([Print "Error: Invalid JSON in job metadata"], Ok VNone)
  /\ serve_call w ctx
     = ((Print "Error: Invalid JSON in job metadata"
          :: trace (serve_call w (without_metadata ctx)))%list,
        outcome (serve_call w (without_metadata ctx)))
  /\ outcome (entrypoint w ctx) = outcome (entrypoint w (without_metadata ctx)).
Proof.
  intros Hm Hne Hl.
  assert (resolve_phone_number ctx
          = ([Print "Error: Invalid JSON in job metadata"], Ok VNone)) as Hres
      by now rewrite (resolve_loaded _ _ Hm Hne), Hl.
  assert (serve_call w ctx
          = ((Print "Error: Invalid JSON in job metadata"
               :: trace (serve_call w (without_metadata ctx)))%list,
             outcome (serve_call w (without_metadata ctx)))) as Hserve.
  { rewrite !serve_call_resolved, Hres.
    rewrite (resolve_absent (without_metadata ctx)) by reflexivity.
    reflexivity. }
  split; [exact Hres |]. split; [exact Hserve |].
  destruct (connect w) as [[] | e] eqn:Hc.
  - rewrite !(entrypoint_connected _ _ Hc), Hserve. reflexivity.
  - now rewrite !(entrypoint_refused _ _ _ Hc).
Qed.

(** When the session is built, what remains of the run is [run_session]. *)
Lemma session_reached w ctx phone_number :
  In (NewAgentSession session_config)
     (trace (call_and_serve w ctx phone_number)) ->
  outcome (call_and_serve w ctx phone_number)
  = outcome (run_session w ctx phone_number)
  /\ forall p,
       (forall line, p (Print line) = false) ->
       (forall req, p (CreateSIPParticipant req) = false) ->
       count p (trace (call_and_serve w ctx phone_number))
       = count p (trace (run_session w ctx phone_number)).
Proof.
  intros Hin.
  destruct (phone_number_cases phone_number)
    as [Hf | [(number & -> & Hne) | (Ht & Hn)]].
  - rewrite (call_and_serve_inbound _ _ _ Hf).
    assert (run_session w ctx VNone = run_session w ctx phone_number) as ->
        by now rewrite !run_session_cases, Hf.
    now split.
  - rewrite (call_and_serve_number _ _ _ Hne) in *.
    destruct (create_sip_participant w (dial_request ctx number)) as [[] | []];
      try (in_cases Hin; fail).
    split; [reflexivity |]. intros p Hp Hd. unfold count. simpl.
    now rewrite !Hp, Hd.
  - rewrite (call_and_serve_not_a_number _ _ _ Ht Hn) in Hin. in_cases Hin.
Qed.

(** X13.  A failure to build or to start the session ends the entrypoint with
    that exception: no greeting is requested and the job is not shut down,
    also when a call has just been answered; when building fails the start is
    not attempted. *)
Theorem session_failure_is_fatal w ctx e :
  In (NewAgentSession session_config) (trace (entrypoint w ctx)) ->
  new_agent_session w session_config = Raise e
  \/ (new_agent_session w session_config = Ok tt
      /\ session_start w (start_options ctx) = Raise e) ->
  outcome (entrypoint w ctx) = Raise e
  /\ job_outcome (entrypoint w ctx) = Crashed e
  /\ count is_greeting (trace (entrypoint w ctx)) = 0
  /\ count is_shutdown (trace (entrypoint w ctx)) = 0
  /\ (new_agent_session w session_config = Raise e ->
      count is_session_start (trace (entrypoint w ctx)) = 0).
Proof.
  intros Hin Hfail.
  apply entrypoint_in_inv in Hin
    as [Hin | [(Hc & Hin) | [(Hc & Hin) | (Hc & phone_number & Hr & Hin)]]].
  - discriminate.
  - pose proof (start_egress_events w ctx) as F.
    rewrite Forall_forall in F. apply F in Hin. discriminate.
  - apply (in_print_only _ _ (resolve_events ctx)) in Hin. discriminate.
  - destruct (session_reached _ _ _ Hin) as [Hout Hcount].
    assert (outcome (entrypoint w ctx) = Raise e) as Ho.
    { rewrite (entrypoint_outcome _ _ _ Hc Hr), Hout, run_session_cases.
      destruct Hfail as [-> | [-> ->]]; reflexivity. }
    assert (forall p,
              p Connect = false ->
              (forall ev, egress_event ev = true -> p ev = false) ->
              (forall req, p (CreateSIPParticipant req) = false) ->
              count p (trace (entrypoint w ctx))
              = count p (trace (run_session w ctx phone_number))) as Hp.
    { intros p H1 H2 H3.
      rewrite (entrypoint_count w ctx p _ Hc Hr H1 H2).
      apply Hcount; [| exact H3]. intros line. now apply H2. }
    split; [exact Ho |].
    split; [unfold job_outcome; now rewrite Ho |].
    rewrite !Hp by (try reflexivity; now intros []).
    rewrite !run_session_cases.
    destruct Hfail as [Hn | [Hn Hs]].
    + rewrite Hn. repeat split.
    + rewrite Hn, Hs. repeat split. intros [=].
Qed.

(** X14.  An answered outbound call: after the dial comes the line that the
    call was answered, then the session is built and started, and that is
    all; no greeting is requested, and the job completes. *)
Theorem answered_call_run w ctx number :
  connect w = Ok tt ->
  outcome (resolve_phone_number ctx) = Ok (VStr number) ->
  number <> "" ->
  create_sip_participant w (dial_request ctx number) = Ok tt ->
  new_agent_session w session_config = Ok tt ->
  session_start w (start_options ctx) = Ok tt ->
  entrypoint w ctx
  = ((Connect :: trace (start_egress w ctx)
        ++ trace (resolve_phone_number ctx)
        ++ [Print ("Attempting to place outbound call to: " ++ number);
            CreateSIPParticipant (dial_request ctx number);
            Print ("Call to " ++ number ++ " was answered.");
            NewAgentSession session_config;
            SessionStart (start_options ctx)])%list,
     Ok tt)
  /\ job_outcome (entrypoint w ctx) = Completed.
Proof.
  intros Hc Hr Hne Hdial Hn Hs.
  assert (truthy (VStr number) = true) as Ht
      by (simpl; now apply String.eqb_neq in Hne as ->).
  assert (call_and_serve w ctx (VStr number)
          = ([Print ("Attempting to place outbound call to: " ++ number);
              CreateSIPParticipant (dial_request ctx number);
              Print ("Call to " ++ number ++ " was answered.");
              NewAgentSession session_config;
              SessionStart (start_options ctx)], Ok tt)) as Hrun
      by now rewrite (call_and_serve_number _ _ _ Hne), Hdial,
           run_session_cases, Hn, Hs, Ht.
  split.
  - now rewrite (entrypoint_connected _ _ Hc), serve_call_resolved, Hr, Hrun.
  - rewrite (job_outcome_entrypoint _ _ Hc). unfold job_outcome.
    rewrite serve_call_resolved, Hr, Hrun. simpl.
    rewrite existsb_app, (existsb_none is_shutdown); [reflexivity |].
    eapply Forall_impl; [| apply resolve_events]. now intros [].
Qed.

(** X15.  Only [TwirpError] counts as a failed dial.  Any other exception of
    the dial leaves the entrypoint as it is: the job is not shut down and no
    session is built. *)
Theorem dial_exception_is_not_caught w ctx number e :
  connect w = Ok tt ->
  outcome (resolve_phone_number ctx) = Ok (VStr number) ->
  number <> "" ->
  create_sip_participant w (dial_request ctx number) = Raise e ->
  is_TwirpError e = false ->
  outcome (entrypoint w ctx) = Raise e
  /\ job_outcome (entrypoint w ctx) = Crashed e
  /\ count is_shutdown (trace (entrypoint w ctx)) = 0
  /\ count is_session (trace (entrypoint w ctx)) = 0.
Proof.
  intros Hc Hr Hne Hdial He.
  assert (call_and_serve w ctx (VStr number)
          = ([Print ("Attempting to place outbound call to: " ++ number);
              CreateSIPParticipant (dial_request ctx number)], Raise e)) as Hrun.
  { rewrite (call_and_serve_number _ _ _ Hne), Hdial.
    destruct e; try reflexivity. discriminate. }
  assert (outcome (entrypoint w ctx) = Raise e) as Ho
      by now rewrite (entrypoint_outcome _ _ _ Hc Hr), Hrun.
  split; [exact Ho |].
  split; [unfold job_outcome; now rewrite Ho |].
  rewrite !(entrypoint_count w ctx _ _ Hc Hr)
    by (try reflexivity; now intros []).
  now rewrite Hrun.
Qed.

End Agent.

(** ** Concrete runs of the weather tool *)

Lemma length_append (a b : string) :
  String.length (a ++ b) = String.length a + String.length b.
Proof.
  induction a as [| c a IH]; simpl; [reflexivity | now rewrite IH].
Qed.

Lemma append_inj_r (s a b : string) : a ++ s = b ++ s -> a = b.
Proof.
  revert b. induction a as [| c a IH]; intros [| d b] H; simpl in H.
  - reflexivity.
  - apply (f_equal String.length) in H. simpl in H.
    rewrite length_append in H. lia.
  - apply (f_equal String.length) in H. simpl in H.
    rewrite length_append in H. lia.
  - injection H as -> H. now rewrite (IH b H).
Qed.

Lemma get_weather_without_key_witness :
  outcome (get_weather sample_repr no_key_world "Paris")
  = Ok "OpenWeather API key is not set."
  /\ trace (get_weather sample_repr no_key_world "Paris") = []
  /\ count is_http_get (trace (get_weather sample_repr no_key_world "Paris")) = 0.
Proof.
  apply (get_weather_without_key sample_repr no_key_world "Paris").
  reflexivity.
Defined.

(** C7 as stated fails on a 2xx status other than 200: for 201 with an empty
    ["weather"] list the code reports the status, not the missing data. *)
Lemma created_status_counterexample :
  let body := Ok (VDict [("weather", VList [])]) in
  let w := world_with (Response 201 body) in
  http_get w (request_url w "Paris") = Response 201 body
  /\ (200 <= 201 < 300)%Z
  /\ weather_absent_or_empty [("weather", VList [])]
  /\ outcome (get_weather sample_repr w "Paris")
     = Ok "Sorry, I couldn't get the weather. Status code: 201"
  /\ outcome (get_weather sample_repr w "Paris")
     <> Ok "Sorry, I couldn't find any weather data for that location.".
Proof.
  repeat split; try reflexivity; try lia. discriminate.
Qed.

Lemma get_weather_status_or_no_data_witness :
  outcome (get_weather sample_repr (world_with (Response 404 (Raise JSONDecodeError))) "Paris")
  = Ok "Sorry, I couldn't get the weather. Status code: 404"
  /\ outcome (get_weather sample_repr
                (world_with (Response 200 (Ok (VDict [("weather", VList [])])))) "Paris")
     = Ok "Sorry, I couldn't find any weather data for that location.".
Proof.
  split.
  - refine (proj1 (get_weather_status_or_no_data sample_repr
                     (world_with (Response 404 (Raise JSONDecodeError))) "Paris"
                     404 (Raise JSONDecodeError) eq_refl eq_refl) _).
    discriminate.
  - exact (proj2 (get_weather_status_or_no_data sample_repr
                    (world_with (Response 200 (Ok (VDict [("weather", VList [])]))))
                    "Paris" 200 (Ok (VDict [("weather", VList [])])) eq_refl eq_refl)
                 [("weather", VList [])] eq_refl eq_refl eq_refl).
Defined.

(** C6 as stated fails on a temperature that Python does not print with one
    decimal: a whole number of degrees is reported without any. *)
Lemma whole_degrees_counterexample :
  let w := world_with (Response 200 (Ok (VDict (clear_sky (VInt 21))))) in
  weather_facts (clear_sky (VInt 21)) (VStr "clear sky") (VInt 21)
  /\ outcome (get_weather sample_repr w "Paris")
     = Ok "The weather in Paris is clear sky with a temperature of 21°C."
  /\ (forall text,
        "The weather in Paris is clear sky with a temperature of 21°C."
        = "The weather in Paris is clear sky with a temperature of " ++ text ++ "°C." ->
        one_decimal text = false).
Proof.
  repeat split.
  - now exists [("description", VStr "clear sky")], [], [("temp", VInt 21)].
  - intros text H. simpl in H.
    repeat (injection H as H).
    change ("21" ++ "°C." = text ++ "°C.") in H.
    apply append_inj_r in H. now subst text.
Qed.

Lemma get_weather_reports_facts_witness :
  outcome (get_weather sample_repr fine_world "Paris")
  = Ok "The weather in Paris is clear sky with a temperature of 21.3°C.".
Proof.
  refine (proj2 (get_weather_reports_facts sample_repr fine_world "Paris"
                   (clear_sky (VFloat "21.3")) (VStr "clear sky") (VFloat "21.3")
                   eq_refl eq_refl _) "clear sky" eq_refl eq_refl).
  now exists [("description", VStr "clear sky")], [], [("temp", VFloat "21.3")].
Defined.

(** C4 as stated fails when the request itself fails: the exception leaves
    [get_weather]. *)
Lemma unreachable_provider_counterexample :
  let w := world_with (NetworkError (OtherException "ClientConnectorError")) in
  get_weather sample_repr w "Paris"
  = ([HttpGet "http://api.openweathermap.org/data/2.5/weather?q=Paris&appid=KEY&units=metric"],
     Raise (OtherException "ClientConnectorError"))
  /\ (forall sentence, outcome (get_weather sample_repr w "Paris") <> Ok sentence).
Proof.
  split; [reflexivity | discriminate].
Qed.

Lemma get_weather_returns_where_guarded_witness :
  exists sentence, outcome (get_weather sample_repr fine_world "Paris") = Ok sentence.
Proof.
  apply (proj1 (get_weather_returns_where_guarded sample_repr fine_world "Paris")).
  apply (guarded_report fine_world "Paris" (clear_sky (VFloat "21.3"))
           (VStr "clear sky") (VFloat "21.3")); try reflexivity.
  now exists [("description", VStr "clear sky")], [], [("temp", VFloat "21.3")].
Defined.

(** ** Concrete runs of the entrypoint *)

Lemma dial_request_fields_witness :
  exists number,
    outcome (resolve_phone_number sample_loads (job (Some outbound_metadata)))
    = Ok (VStr number)
    /\ sip_trunk_id (dial_request (job (Some outbound_metadata)) "+15550100")
       = "ST_p7QcFHJKXXUM"
    /\ sip_call_to (dial_request (job (Some outbound_metadata)) "+15550100") = number
    /\ participant_identity (dial_request (job (Some outbound_metadata)) "+15550100")
       = number
    /\ wait_until_answered (dial_request (job (Some outbound_metadata)) "+15550100")
       = true
    /\ sip_room_name (dial_request (job (Some outbound_metadata)) "+15550100")
       = room_name (job (Some outbound_metadata)).
Proof.
  apply (dial_request_fields sample_repr sample_exn_str sample_loads fine_world).
  vm_compute. tauto.
Defined.



Lemma greeting_once_inbound_only_witness :
  count is_greeting
    (trace (entrypoint sample_repr sample_exn_str sample_loads fine_world
              (job None))) = 1.
Proof.
  apply (proj1 (proj2 (greeting_once_inbound_only sample_repr sample_exn_str
                         sample_loads fine_world (job None)))).
  split; [reflexivity |]. split; [| split; reflexivity].
  exists VNone. split; reflexivity.
Defined.

Lemma metadata_not_an_object_is_fatal_witness :
  outcome (resolve_phone_number sample_loads (job (Some "123")))
  = Raise AttributeError
  /\ outcome (entrypoint sample_repr sample_exn_str sample_loads fine_world
                (job (Some "123"))) = Raise AttributeError
  /\ job_outcome (entrypoint sample_repr sample_exn_str sample_loads fine_world
                    (job (Some "123"))) = Crashed AttributeError
  /\ count is_session
       (trace (entrypoint sample_repr sample_exn_str sample_loads fine_world
                 (job (Some "123")))) = 0
  /\ count is_greeting
       (trace (entrypoint sample_repr sample_exn_str sample_loads fine_world
                 (job (Some "123")))) = 0.
Proof.
  apply (metadata_not_an_object_is_fatal sample_repr sample_exn_str sample_loads
           fine_world (job (Some "123")) "123" (VInt 123));
    try reflexivity; discriminate.
Defined.

Lemma empty_phone_number_is_inbound_witness :
  count is_dial
    (trace (entrypoint sample_repr sample_exn_str sample_loads fine_world
              (job (Some empty_number_metadata)))) = 0
  /\ In (SessionStart (start_options (job (Some empty_number_metadata))))
        (trace (entrypoint sample_repr sample_exn_str sample_loads fine_world
                  (job (Some empty_number_metadata))))
  /\ count is_greeting
       (trace (entrypoint sample_repr sample_exn_str sample_loads fine_world
                 (job (Some empty_number_metadata)))) = 1.
Proof.
  assert (empty_number_metadata <> "") as Hne by discriminate.
  destruct (empty_phone_number_is_inbound sample_repr sample_exn_str sample_loads
              fine_world (job (Some empty_number_metadata))
              empty_number_metadata [("phone_number", VStr "")]
              eq_refl Hne eq_refl eq_refl)
    as (_ & _ & Hdial & _ & Hsession).
  destruct (Hsession eq_refl eq_refl eq_refl) as (_ & Hstart & _ & Hgreet).
  exact (conj Hdial (conj Hstart Hgreet)).
Defined.

Lemma egress_failure_is_discarded_witness :
  outcome (entrypoint sample_repr sample_exn_str sample_loads no_egress_world
             (job None)) = Ok tt
  /\ job_outcome (entrypoint sample_repr sample_exn_str sample_loads
                    no_egress_world (job None)) = Completed
  /\ job_outcome (entrypoint sample_repr sample_exn_str sample_loads
                    fine_world (job None))
     = job_outcome (entrypoint sample_repr sample_exn_str sample_loads
                      no_egress_world (job None))
  /\ count is_greeting
       (trace (entrypoint sample_repr sample_exn_str sample_loads
                 no_egress_world (job None))) = 1.
Proof.
  destruct (egress_failure_is_discarded sample_repr sample_exn_str sample_loads
              no_egress_world (job None) (TwirpError "permission denied")
              eq_refl eq_refl)
    as (_ & _ & _ & Hsame & Hinbound).
  destruct (Hinbound VNone eq_refl eq_refl eq_refl eq_refl)
    as (Hout & Hjob & _ & Hgreet).
  assert (same_outside_egress no_egress_world fine_world) as Hw
      by (repeat split).
  destruct (Hsame fine_world Hw) as (_ & _ & Hjobs).
  exact (conj Hout (conj Hjob (conj Hjobs Hgreet))).
Defined.

(** ** Concrete runs for the further properties *)

Lemma get_weather_raises_only_witness :
  http_get (world_with (NetworkError (OtherException "ClientConnectorError")))
    (request_url (world_with (NetworkError (OtherException "ClientConnectorError")))
       "Paris")
  = NetworkError (OtherException "ClientConnectorError")
  \/ http_get (world_with (NetworkError (OtherException "ClientConnectorError")))
       (request_url (world_with (NetworkError (OtherException "ClientConnectorError")))
          "Paris")
     = Response 200 (Raise (OtherException "ClientConnectorError"))
  \/ (exists data,
        http_get (world_with (NetworkError (OtherException "ClientConnectorError")))
          (request_url
             (world_with (NetworkError (OtherException "ClientConnectorError")))
             "Paris")
        = Response 200 (Ok data)
        /\ (OtherException "ClientConnectorError" = TypeError
            \/ OtherException "ClientConnectorError" = KeyError)).
Proof.
  apply (get_weather_raises_only sample_repr
           (world_with (NetworkError (OtherException "ClientConnectorError")))
           "Paris").
  reflexivity.
Defined.

Lemma get_weather_sentences_witness :
  "The weather in Paris is clear sky with a temperature of 21.3°C." <> "".
Proof.
  exact (proj2 (get_weather_sentences sample_repr fine_world "Paris"
                  "The weather in Paris is clear sky with a temperature of 21.3°C."
                  eq_refl)).
Defined.

Lemma get_weather_object_returns_iff_witness :
  (exists sentence,
     outcome (get_weather sample_repr fine_world "Paris") = Ok sentence)
  <-> weather_absent_or_empty (clear_sky (VFloat "21.3"))
      \/ exists description temp,
           weather_facts (clear_sky (VFloat "21.3")) description temp.
Proof.
  exact (get_weather_object_returns_iff sample_repr fine_world "Paris"
           (clear_sky (VFloat "21.3")) eq_refl eq_refl).
Defined.

Lemma get_weather_missing_fact_witness :
  outcome (get_weather sample_repr
             (world_with (Response 200 (Ok (VDict sky_only)))) "Paris")
  = Raise KeyError.
Proof.
  apply (get_weather_missing_fact sample_repr
           (world_with (Response 200 (Ok (VDict sky_only)))) "Paris" sky_only
           [("description", VStr "clear sky")] []);
    try reflexivity.
  right. now left.
Defined.

Lemma get_weather_body_not_an_object_witness :
  outcome (get_weather sample_repr
             (world_with (Response 200 (Ok (VList [VStr "error"])))) "Paris")
  = Ok "Sorry, I couldn't find any weather data for that location.".
Proof.
  apply (get_weather_body_not_an_object sample_repr
           (world_with (Response 200 (Ok (VList [VStr "error"])))) "Paris"
           (VList [VStr "error"]));
    try reflexivity.
  discriminate.
Defined.

Lemma egress_request_fields_witness :
  egress_room_name (egress_request fine_world (job None)) = "room-1"
  /\ audio_only (egress_request fine_world (job None)) = true
  /\ file_outputs (egress_request fine_world (job None))
     = [ {| file_type := OGG;
            filepath := "room-1.ogg";
            s3 := {| access_key := None;
                     secret := None;
                     region := "eu-north-1";
                     bucket := "livekit-calls" |} |} ].
Proof.
  apply (egress_request_fields sample_repr sample_exn_str sample_loads
           fine_world (job None) (egress_request fine_world (job None))).
  vm_compute. tauto.
Defined.

Lemma falsy_phone_number_is_inbound_witness :
  entrypoint sample_repr sample_exn_str more_loads fine_world
    (job (Some null_number_metadata))
  = entrypoint sample_repr sample_exn_str more_loads fine_world
      (without_metadata (job (Some null_number_metadata)))
  /\ count is_dial
       (trace (entrypoint sample_repr sample_exn_str more_loads fine_world
                 (job (Some null_number_metadata)))) = 0.
Proof.
  assert (null_number_metadata <> "") as Hne by discriminate.
  exact (falsy_phone_number_is_inbound sample_repr sample_exn_str more_loads
           fine_world (job (Some null_number_metadata)) null_number_metadata
           [("phone_number", VNone)] VNone eq_refl Hne eq_refl eq_refl eq_refl).
Defined.

Lemma undecodable_metadata_is_logged_witness :
  resolve_phone_number sample_loads (job (Some "+15550100"))
  = ([Print "Error: Invalid JSON in job metadata"], Ok VNone)
  /\ outcome (entrypoint sample_repr sample_exn_str sample_loads fine_world
                (job (Some "+15550100")))
     = outcome (entrypoint sample_repr sample_exn_str sample_loads fine_world
                  (without_metadata (job (Some "+15550100")))).
Proof.
  assert ("+15550100" <> "") as Hne by discriminate.
  destruct (undecodable_metadata_is_logged sample_repr sample_exn_str
              sample_loads fine_world (job (Some "+15550100")) "+15550100"
              eq_refl Hne eq_refl)
    as (Hres & _ & Hout).
  exact (conj Hres Hout).
Defined.

Lemma session_failure_is_fatal_witness :
  outcome (entrypoint sample_repr sample_exn_str sample_loads no_session_world
             (job None)) = Raise (OtherException "RuntimeError")
  /\ count is_greeting
       (trace (entrypoint sample_repr sample_exn_str sample_loads
                 no_session_world (job None))) = 0
  /\ count is_shutdown
       (trace (entrypoint sample_repr sample_exn_str sample_loads
                 no_session_world (job None))) = 0.
Proof.
  assert (In (NewAgentSession session_config)
             (trace (entrypoint sample_repr sample_exn_str sample_loads
                       no_session_world (job None)))) as Hin
      by (vm_compute; tauto).
  destruct (session_failure_is_fatal sample_repr sample_exn_str sample_loads
              no_session_world (job None) (OtherException "RuntimeError") Hin
              (or_intror (conj eq_refl eq_refl)))
    as (Hout & _ & Hgreet & Hshut & _).
  exact (conj Hout (conj Hgreet Hshut)).
Defined.

Lemma answered_call_run_witness :
  job_outcome (entrypoint sample_repr sample_exn_str sample_loads fine_world
                 (job (Some outbound_metadata))) = Completed.
Proof.
  assert ("+15550100" <> "") as Hne by discriminate.
  exact (proj2 (answered_call_run sample_repr sample_exn_str sample_loads
                  fine_world (job (Some outbound_metadata)) "+15550100"
                  eq_refl eq_refl Hne eq_refl eq_refl eq_refl)).
Defined.

Lemma dial_exception_is_not_caught_witness :
  outcome (entrypoint sample_repr sample_exn_str sample_loads no_gateway_world
             (job (Some outbound_metadata)))
  = Raise (OtherException "ClientConnectorError")
  /\ job_outcome (entrypoint sample_repr sample_exn_str sample_loads
                    no_gateway_world (job (Some outbound_metadata)))
     = Crashed (OtherException "ClientConnectorError")
  /\ count is_shutdown
       (trace (entrypoint sample_repr sample_exn_str sample_loads
                 no_gateway_world (job (Some outbound_metadata)))) = 0
  /\ count is_session
       (trace (entrypoint sample_repr sample_exn_str sample_loads
                 no_gateway_world (job (Some outbound_metadata)))) = 0.
Proof.
  assert ("+15550100" <> "") as Hne by discriminate.
  exact (dial_exception_is_not_caught sample_repr sample_exn_str sample_loads
           no_gateway_world (job (Some outbound_metadata)) "+15550100"
           (OtherException "ClientConnectorError")
           eq_refl eq_refl Hne eq_refl eq_refl).
Defined.

Lemma metadata_without_number_is_inbound_witness :
  outcome (resolve_phone_number sample_loads (job (Some "{}"))) = Ok VNone
  /\ call_intent VNone = Inbound
  /\ count is_dial
       (trace (entrypoint sample_repr sample_exn_str sample_loads fine_world
                 (job (Some "{}")))) = 0.
Proof.
  apply (metadata_without_number_is_inbound sample_repr sample_exn_str
           sample_loads fine_world (job (Some "{}"))).
  right. exists "{}". split; [reflexivity |]. split; [discriminate |].
  right. now exists [].
Defined.
